(** * game-todo-list: a model of [game-todo-list.cc]

    The program is a thin adapter over the Win32 windowing and GDI
    interfaces.  This development embeds it shallowly: the C library
    functions it calls ([std::getenv], [std::atoi]) are functions on
    strings, the operating system is an explicit [World] that records
    every API call, and every function of the source file is a
    computation in a small state-and-abort monad over that world. *)

From Stdlib Require Import ZArith List String Ascii Bool Lia.
Import ListNotations.
Local Open Scope string_scope.
Local Open Scope list_scope.
Local Open Scope Z_scope.

(** ** The C library: [std::atoi] and [std::getenv] *)

Module CLib.

Definition INT_MIN : Z := -2147483648.
Definition INT_MAX : Z := 2147483647.

Definition in_int_range (z : Z) : bool := (INT_MIN <=? z) && (z <=? INT_MAX).

Definition code (c : ascii) : Z := Z.of_N (N_of_ascii c).

(** [isspace] in the "C" locale: space, and the controls \t \n \v \f \r. *)
Definition isspace (c : ascii) : bool :=
  (code c =? 32) || ((9 <=? code c) && (code c <=? 13)).

(** [isdigit]. *)
Definition isdigit (c : ascii) : bool := (48 <=? code c) && (code c <=? 57).

Definition digit_value (c : ascii) : Z := code c - 48.

Fixpoint skip_space (s : string) : string :=
  match s with
  | String c s' => if isspace c then skip_space s' else s
  | EmptyString => s
  end.

(** The digit loop: consume decimal digits, stop at the first other
    character. *)
Fixpoint digits_value (s : string) (acc : Z) : Z :=
  match s with
  | String c s' =>
      if isdigit c then digits_value s' (10 * acc + digit_value c) else acc
  | EmptyString => acc
  end.

(** The number a decimal conversion reads at the start of [s]: white
    space is skipped, one sign is accepted, digits are accumulated; no
    digits at all gives zero. *)
Definition parse_value (s : string) : Z :=
  match skip_space s with
  | String "-"%char r => - digits_value r 0
  | String "+"%char r => digits_value r 0
  | r => digits_value r 0
  end.

(** [std::atoi].  The C standard leaves the behaviour undefined when the
    value is not representable in [int]; that case is [None]. *)
Definition atoi (s : string) : option Z :=
  let v := parse_value s in
  if in_int_range v then Some v else None.

(** The process environment and [std::getenv]: the first binding of the
    name, or a null pointer. *)
Definition Environ := list (string * string).

Fixpoint getenv (env : Environ) (name : string) : option string :=
  match env with
  | [] => None
  | (k, v) :: rest => if String.eqb k name then Some v else getenv rest name
  end.

(** Does [s] start (after white space and a sign) with a digit? *)
Definition has_number (s : string) : bool :=
  match skip_space s with
  | String "-"%char (String c _) => isdigit c
  | String "+"%char (String c _) => isdigit c
  | String c _ => isdigit c
  | EmptyString => false
  end.

(** Decimal notation of an integer, as [printf("%d")] writes it; this
    is the reference for "a value that parses as an integer". *)
Definition digit_char (d : Z) : ascii := ascii_of_N (Z.to_N (48 + d)).

Fixpoint decimal_digits (fuel : nat) (n : Z) (acc : string) : string :=
  match fuel with
  | O => acc
  | S f =>
      let acc' := String (digit_char (n mod 10)) acc in
      if n <? 10 then acc' else decimal_digits f (n / 10) acc'
  end.

Definition decimal (z : Z) : string :=
  if z <? 0 then String "-"%char (decimal_digits 10 (- z) "")
  else decimal_digits 10 z "".

End CLib.

Import CLib.

(** ** Win32 constants used by the program (from [windows.h]) *)

Module Win32.

Definition NULL : Z := 0.

Definition WM_CREATE  : Z := 1.
Definition WM_DESTROY : Z := 2.
Definition WM_PAINT   : Z := 15.
Definition WM_CLOSE   : Z := 16.
Definition WM_QUIT    : Z := 18.
Definition WM_SETICON : Z := 128.
Definition WM_KEYDOWN : Z := 256.
Definition WM_KEYUP       : Z := 257.
Definition WM_CHAR        : Z := 258.
Definition WM_DEADCHAR    : Z := 259.
Definition WM_SYSKEYDOWN  : Z := 260.
Definition WM_SYSKEYUP    : Z := 261.
Definition WM_SYSCHAR     : Z := 262.
Definition WM_SYSDEADCHAR : Z := 263.
Definition WM_HOTKEY  : Z := 786.

Definition VK_UP : Z := 38.
Definition VK_F5 : Z := 116.

Definition ICON_SMALL : Z := 0.
Definition ICON_BIG   : Z := 1.

Definition HALFTONE     : Z := 4.
Definition BLACKONWHITE : Z := 1.
Definition SRCCOPY      : Z := 13369376.   (* 0x00CC0020 *)
Definition SM_CXSCREEN  : Z := 0.
Definition SM_CYSCREEN  : Z := 1.
Definition COLOR_WINDOW : Z := 5.
Definition SYSTEM_FONT  : Z := 13.
Definition WS_OVERLAPPEDWINDOW : Z := 13565952.   (* 0x00CF0000 *)

Definition LOWORD (l : Z) : Z := Z.land l 65535.
Definition HIWORD (l : Z) : Z := Z.land (Z.shiftr l 16) 65535.

(** Arithmetic on [LONG]/[int]: 32 bits, two's complement. *)
Definition wrap32 (z : Z) : Z := (z + 2147483648) mod 4294967296 - 2147483648.
Definition sub32 (a b : Z) : Z := wrap32 (a - b).

Record RECT := mkRECT { left : Z; top : Z; right : Z; bottom : Z }.

Record MSG := mkMSG { message : Z; wParam : Z; lParam : Z }.

End Win32.

Import Win32.

(** ** The operating system as the program sees it *)

(** The API calls the program makes, with their arguments.  Out
    parameters ([RECT*], [PAINTSTRUCT*], [MSG*]) are not arguments here:
    what the system writes through them is read from the [World]. *)
Inductive OsCall : Type :=
| GetDC (hWnd : Z)
| ReleaseDC (hWnd hDC : Z)
| CreateCompatibleDC (hdc : Z)
| DeleteObject (ho : Z)
| GetClientRect (hWnd : Z)
| CreateCompatibleBitmap (hdc cx cy : Z)
| SelectObject (hdc h : Z)
| SetStretchBltMode (hdc mode : Z)
| GetSystemMetrics (nIndex : Z)
| StretchBlt (hdcDest xDest yDest wDest hDest hdcSrc xSrc ySrc wSrc hSrc rop : Z)
| BitBlt (hdcDest xDest yDest wDest hDest hdcSrc xSrc ySrc rop : Z)
| BeginPaint (hWnd : Z)
| EndPaint (hWnd : Z)
| FillRect (hDC : Z) (lprc : RECT) (hbr : Z)
| GetStockObject (i : Z)
| TextOut (hdc x y : Z) (lpString : string) (c : Z)
| GetModuleHandle (lpModuleName : Z)
| LoadIcon (hInstance lpIconName : Z)
| SendMessage (hWnd Msg wParam lParam : Z)
| PostMessage (hWnd Msg wParam lParam : Z)
| RegisterHotKey (hWnd id fsModifiers vk : Z)
| UnregisterHotKey (hWnd id : Z)
| PostQuitMessage (nExitCode : Z)
| CreateWindowEx (lpWindowName : string) (dwStyle X Y nWidth nHeight : Z)
| DestroyWindow (hWnd : Z)
| ShowWindow (hWnd nCmdShow : Z)
| GetMessage
| TranslateMessage (msg : MSG)
| DispatchMessage (msg : MSG)
| DefWindowProc (Msg wParam lParam : Z).

(** The name of the called function, as [WIDE_STRINGIZE(function)]
    spells it in a failure report. *)
Definition api_name (c : OsCall) : string :=
  match c with
  | GetDC _ => "GetDC"
  | ReleaseDC _ _ => "ReleaseDC"
  | CreateCompatibleDC _ => "CreateCompatibleDC"
  | DeleteObject _ => "DeleteObject"
  | GetClientRect _ => "GetClientRect"
  | CreateCompatibleBitmap _ _ _ => "CreateCompatibleBitmap"
  | SelectObject _ _ => "SelectObject"
  | SetStretchBltMode _ _ => "SetStretchBltMode"
  | GetSystemMetrics _ => "GetSystemMetrics"
  | StretchBlt _ _ _ _ _ _ _ _ _ _ _ => "StretchBlt"
  | BitBlt _ _ _ _ _ _ _ _ _ => "BitBlt"
  | BeginPaint _ => "BeginPaint"
  | EndPaint _ => "EndPaint"
  | FillRect _ _ _ => "FillRect"
  | GetStockObject _ => "GetStockObject"
  | TextOut _ _ _ _ _ => "TextOut"
  | GetModuleHandle _ => "GetModuleHandle"
  | LoadIcon _ _ => "LoadIcon"
  | SendMessage _ _ _ _ => "SendMessage"
  | PostMessage _ _ _ _ => "PostMessage"
  | RegisterHotKey _ _ _ _ => "RegisterHotKey"
  | UnregisterHotKey _ _ => "UnregisterHotKey"
  | PostQuitMessage _ => "PostQuitMessage"
  | CreateWindowEx _ _ _ _ _ _ => "CreateWindowEx"
  | DestroyWindow _ => "DestroyWindow"
  | ShowWindow _ _ => "ShowWindow"
  | GetMessage => "GetMessage"
  | TranslateMessage _ => "TranslateMessage"
  | DispatchMessage _ => "DispatchMessage"
  | DefWindowProc _ _ _ => "DefWindowProc"
  end.

(** Resources a handler holds until it gives them back. *)
Inductive Resource : Type :=
| DC (h : Z)            (* a device context from [GetDC]; [ReleaseDC] *)
| GdiObject (h : Z)     (* a created DC or bitmap; [DeleteObject] *)
| Selection (hdc : Z)   (* an object selected into [hdc] in place of its
                           original one; given back by selecting the
                           original again *)
| PaintDC (hWnd : Z).   (* [BeginPaint]; [EndPaint] *)

Definition Resource_eqb (a b : Resource) : bool :=
  match a, b with
  | DC x, DC y => x =? y
  | GdiObject x, GdiObject y => x =? y
  | Selection x, Selection y => x =? y
  | PaintDC x, PaintDC y => x =? y
  | _, _ => false
  end.

Fixpoint remove_first (r : Resource) (l : list Resource) : list Resource :=
  match l with
  | [] => []
  | x :: l' => if Resource_eqb r x then l' else x :: remove_first r l'
  end.

(** A registered hot key: the window and identifier it reports to, and
    the keystroke. *)
Record HotKey := mkHotKey { hk_hwnd : Z; hk_id : Z; hk_mods : Z; hk_vk : Z }.

(** The diagnostic stream: what one [TRACE] writes before [std::endl]. *)
Inductive TraceItem : Type :=
| Text (s : string)
| Dec (z : Z)          (* an integer streamed in decimal *)
| Hex (z : Z).         (* an integer streamed after [std::hex] *)

Inductive TraceLine : Type :=
| Line (items : list TraceItem)
| ApiFailure (function : string).   (* the report of a failed API call *)

(** The order in which the arguments of one call are evaluated.  C++
    leaves it unspecified (one argument is evaluated wholly before or
    wholly after another); the compiler chooses. *)
Inductive ArgOrder : Type :=
| LeftToRight
| RightToLeft.

(** What the keyboard layout and the state of the keyboard make of a
    key press: no character, a character, or a dead character. *)
Inductive KeyChar : Type :=
| NoChar
| Char (c : Z)
| DeadChar (c : Z).

(** What the program cannot influence: the environment block, the
    module handle, which API calls fail (by position in the call
    history and by call), what the system reports about the window
    and the screen, the order in which the compiler evaluates the
    arguments of a call, and the keyboard. *)
Record Platform := mkPlatform {
  environ    : Environ;
  hModule    : Z;
  faults     : nat -> OsCall -> bool;
  clientRect : RECT;
  rcPaint    : RECT;
  metrics    : Z -> Z;
  arg_order  : ArgOrder;
  keyboard   : MSG -> KeyChar
}.

Record World := mkWorld {
  platform       : Platform;
  g_tracingLevel : Z;                    (* the global of the source *)
  m_hwnd         : Z;                    (* [GTLMainWindow::m_hwnd] *)
  wcerr          : list TraceLine;       (* lines written, newest first *)
  oslog          : list (OsCall * Z);    (* calls and results, newest first *)
  live           : list Resource;        (* held resources, newest first *)
  next_handle    : positive;             (* handle allocator *)
  hotkeys        : list HotKey;          (* system hot-key table *)
  msgq           : list MSG;             (* the thread's message queue *)
  quit           : option Z;             (* [PostQuitMessage] was called *)
  wnd_exists     : bool                  (* the window has not been destroyed *)
}.

Definition set_tracingLevel (v : Z) (w : World) : World :=
  mkWorld (platform w) v (m_hwnd w) (wcerr w) (oslog w) (live w)
          (next_handle w) (hotkeys w) (msgq w) (quit w) (wnd_exists w).
Definition set_hwnd (v : Z) (w : World) : World :=
  mkWorld (platform w) (g_tracingLevel w) v (wcerr w) (oslog w) (live w)
          (next_handle w) (hotkeys w) (msgq w) (quit w) (wnd_exists w).
Definition set_wcerr (v : list TraceLine) (w : World) : World :=
  mkWorld (platform w) (g_tracingLevel w) (m_hwnd w) v (oslog w) (live w)
          (next_handle w) (hotkeys w) (msgq w) (quit w) (wnd_exists w).
Definition set_oslog (v : list (OsCall * Z)) (w : World) : World :=
  mkWorld (platform w) (g_tracingLevel w) (m_hwnd w) (wcerr w) v (live w)
          (next_handle w) (hotkeys w) (msgq w) (quit w) (wnd_exists w).
Definition set_live (v : list Resource) (w : World) : World :=
  mkWorld (platform w) (g_tracingLevel w) (m_hwnd w) (wcerr w) (oslog w) v
          (next_handle w) (hotkeys w) (msgq w) (quit w) (wnd_exists w).
Definition set_next_handle (v : positive) (w : World) : World :=
  mkWorld (platform w) (g_tracingLevel w) (m_hwnd w) (wcerr w) (oslog w) (live w)
          v (hotkeys w) (msgq w) (quit w) (wnd_exists w).
Definition set_hotkeys (v : list HotKey) (w : World) : World :=
  mkWorld (platform w) (g_tracingLevel w) (m_hwnd w) (wcerr w) (oslog w) (live w)
          (next_handle w) v (msgq w) (quit w) (wnd_exists w).
Definition set_msgq (v : list MSG) (w : World) : World :=
  mkWorld (platform w) (g_tracingLevel w) (m_hwnd w) (wcerr w) (oslog w) (live w)
          (next_handle w) (hotkeys w) v (quit w) (wnd_exists w).
Definition set_quit (v : option Z) (w : World) : World :=
  mkWorld (platform w) (g_tracingLevel w) (m_hwnd w) (wcerr w) (oslog w) (live w)
          (next_handle w) (hotkeys w) (msgq w) v (wnd_exists w).
Definition set_wnd_exists (v : bool) (w : World) : World :=
  mkWorld (platform w) (g_tracingLevel w) (m_hwnd w) (wcerr w) (oslog w) (live w)
          (next_handle w) (hotkeys w) (msgq w) (quit w) v.

(** Handles the system hands out are even and never null; the stock
    objects below are odd, so the two never coincide. *)
Definition fresh_handle (w : World) : Z := Z.pos (next_handle w)~0.

(** The object a device context holds before the program selects
    anything into it. *)
Definition DEFAULT_OBJECT : Z := 1.
Definition stock_object (i : Z) : Z := 2 * Z.abs i + 3.
Definition ICON_HANDLE : Z := 5.

(** Does the platform make this call fail?  The position is the number
    of calls made so far. *)
Definition fails (w : World) (c : OsCall) : bool :=
  faults (platform w) (List.length (oslog w)) c.

Definition acquire (r : Z -> Resource) (w : World) : Z * World :=
  let h := fresh_handle w in
  (h, set_next_handle (Pos.succ (next_handle w)) (set_live (r h :: live w) w)).

Definition release (r : Resource) (w : World) : World :=
  set_live (remove_first r (live w)) w.

Definition key_taken (w : World) (mods vk : Z) : bool :=
  existsb (fun k => (hk_mods k =? mods) && (hk_vk k =? vk)) (hotkeys w).

Definition is_hotkey (hwnd id : Z) (k : HotKey) : bool :=
  (hk_hwnd k =? hwnd) && (hk_id k =? id).

(** The character message [TranslateMessage] posts for a keyboard
    message: [WM_CHAR] or [WM_DEADCHAR] for a key press, [WM_SYSCHAR]
    or [WM_SYSDEADCHAR] for a system key press, when the keyboard
    gives the key a character; nothing for any other message. *)
Definition is_key_press (m : MSG) : bool :=
  (message m =? WM_KEYDOWN) || (message m =? WM_SYSKEYDOWN).

Definition char_message (p : Platform) (m : MSG) : list MSG :=
  if is_key_press m then
    let sys := message m =? WM_SYSKEYDOWN in
    match keyboard p m with
    | NoChar => []
    | Char c => [mkMSG (if sys then WM_SYSCHAR else WM_CHAR) c (lParam m)]
    | DeadChar c => [mkMSG (if sys then WM_SYSDEADCHAR else WM_DEADCHAR) c (lParam m)]
    end
  else [].

(** Keyboard messages: for these [TranslateMessage] returns nonzero
    whether or not it posts a character message. *)
Definition is_key_message (m : MSG) : bool :=
  (message m =? WM_KEYDOWN) || (message m =? WM_KEYUP)
  || (message m =? WM_SYSKEYDOWN) || (message m =? WM_SYSKEYUP).

(** The effect and the return value of one call.  Zero is [FALSE] or a
    null handle.  Calls that give a resource back always succeed;
    [RegisterHotKey] fails when the keystroke is already registered,
    [UnregisterHotKey] when the hot key is not.  [TranslateMessage]
    posts the character message of a key press.

    [SendMessage] does not return before the window procedure has
    handled the message.  The program sends [WM_SETICON] only, for
    which [handleMessage] has no case, so that activation is the base
    handler's; the icon it sets is not a component of the [World], and
    the call is recorded with nothing else changed.  [DispatchMessage]
    is recorded here and the activation it causes is in
    [dispatchMessage] below. *)
Definition os_exec (c : OsCall) (w : World) : Z * World :=
  match c with
  | GetDC _ => if fails w c then (0, w) else acquire DC w
  | ReleaseDC _ hdc => (1, release (DC hdc) w)
  | CreateCompatibleDC _ => if fails w c then (0, w) else acquire GdiObject w
  | CreateCompatibleBitmap _ _ _ => if fails w c then (0, w) else acquire GdiObject w
  | DeleteObject h => (1, release (GdiObject h) w)
  | SelectObject hdc h =>
      if h =? NULL then (0, w)
      else if h =? DEFAULT_OBJECT then (DEFAULT_OBJECT, release (Selection hdc) w)
      else if fails w c then (0, w)
      else (DEFAULT_OBJECT, set_live (Selection hdc :: live w) w)
  | BeginPaint hwnd =>
      if fails w c then (0, w) else acquire (fun _ => PaintDC hwnd) w
  | EndPaint hwnd => (1, release (PaintDC hwnd) w)
  | SetStretchBltMode _ _ => (if fails w c then 0 else BLACKONWHITE, w)
  | GetSystemMetrics i => (if fails w c then 0 else metrics (platform w) i, w)
  | GetStockObject i => (if fails w c then 0 else stock_object i, w)
  | LoadIcon _ _ => (if fails w c then 0 else ICON_HANDLE, w)
  | GetModuleHandle _ => (hModule (platform w), w)
  | PostMessage _ msg wp lp =>
      if fails w c then (0, w)
      else (1, set_msgq (msgq w ++ [mkMSG msg wp lp]) w)
  | RegisterHotKey hwnd id mods vk =>
      if fails w c || key_taken w mods vk then (0, w)
      else (1, set_hotkeys (mkHotKey hwnd id mods vk :: hotkeys w) w)
  | UnregisterHotKey hwnd id =>
      if existsb (is_hotkey hwnd id) (hotkeys w)
      then (1, set_hotkeys (filter (fun k => negb (is_hotkey hwnd id k)) (hotkeys w)) w)
      else (0, w)
  | PostQuitMessage code => (0, set_quit (Some code) w)
  | CreateWindowEx _ _ _ _ _ _ =>
      if fails w c then (0, w)
      else (fresh_handle w,
            set_wnd_exists true (set_next_handle (Pos.succ (next_handle w)) w))
  | DestroyWindow _ => (1, set_wnd_exists false w)
  | GetClientRect _ | StretchBlt _ _ _ _ _ _ _ _ _ _ _ | BitBlt _ _ _ _ _ _ _ _ _
  | FillRect _ _ _ | TextOut _ _ _ _ _ =>
      (if fails w c then 0 else 1, w)
  | TranslateMessage msg =>
      (if is_key_message msg then 1 else 0,
       match char_message (platform w) msg with
       | [] => w
       | chars => set_msgq (msgq w ++ chars) w
       end)
  | SendMessage _ _ _ _ | ShowWindow _ _ | GetMessage
  | DispatchMessage _ | DefWindowProc _ _ _ => (0, w)
  end.

(** ** Computations: state passing with abrupt termination *)

Inductive Result (A : Type) : Type :=
| Ok (a : A)
| Abort.            (* the operation in progress was given up *)
Arguments Ok {A} a.
Arguments Abort {A}.

Definition M (A : Type) : Type := World -> Result A * World.

Definition ret {A} (a : A) : M A := fun w => (Ok a, w).

Definition bind {A B} (m : M A) (k : A -> M B) : M B :=
  fun w => match m w with
           | (Ok a, w1) => k a w1
           | (Abort, w1) => (Abort, w1)
           end.

Definition abort {A} : M A := fun w => (Abort, w).

Notation "x <- m ;; k" := (bind m (fun x => k))
  (at level 61, m at next level, right associativity).
Notation "m ;; k" := (bind m (fun _ => k))
  (at level 61, right associativity).

(** What a C++ destructor does for a local object: [dtor] runs when the
    scope [body] is left, whether it ran to its end or was given up. *)
Definition scope_exit {A} (dtor : M unit) (body : M A) : M A :=
  fun w => let (r, w1) := body w in (r, snd (dtor w1)).

(** The boundary of an operation: it ran to its end or was given up,
    and control is back at the caller either way. *)
Definition attempt {A} (m : M A) : World -> World := fun w => snd (m w).

(** One API call: the system acts, and the call is recorded with its
    result. *)
Definition oscall (c : OsCall) : M Z :=
  fun w => let (r, w1) := os_exec c w in (Ok r, set_oslog ((c, r) :: oslog w1) w1).

Definition this_hwnd : M Z := fun w => (Ok (m_hwnd w), w).

(** ** The source file *)

(** [#define TRACE(level, msg) if (g_tracingLevel >= (level)) { std::wcerr << msg << std::endl; }] *)
Definition TRACE (level : Z) (msg : TraceLine) : M unit :=
  fun w => (Ok tt, set_wcerr (if level <=? g_tracingLevel w
                              then msg :: wcerr w else wcerr w) w).

Definition TRACE1 := TRACE 1.
Definition TRACE2 := TRACE 2.
Definition TRACE3 := TRACE 3.

Definition HOTKEY_ID_F5 : Z := 1.
Definition HOTKEY_ID_UP : Z := 2.

(** Modelled from the spec: [winapi-util.h] is not among the sources, so
    its checked-call macros follow sections 4.1 and 7: a failure return
    (zero) "is reported via a leveled diagnostic trace" at the level the
    source reserves for API call failures (1), and "the enclosing event
    handler simply returns without completing its remaining steps". *)
Definition CALL_HANDLE_WINAPI (c : OsCall) : M Z :=
  h <- oscall c ;;
  if h =? 0 then TRACE1 (ApiFailure (api_name c)) ;; abort else ret h.

(** Modelled from the spec: see [CALL_HANDLE_WINAPI]. *)
Definition CALL_BOOL_WINAPI (c : OsCall) : M unit :=
  b <- oscall c ;;
  if b =? 0 then TRACE1 (ApiFailure (api_name c)) ;; abort else ret tt.

(** Modelled from the spec: [GET_AND_RELEASE_HDC(hdc, hwnd)] of
    [winapi-util.h] declares [hdc], obtains it with [GetDC(hwnd)] and
    gives it back with [ReleaseDC] when the scope is left (section 9:
    "scoped-acquisition wrappers guaranteeing release on every exit
    path"). *)
Definition GET_AND_RELEASE_HDC {A} (hwnd : Z) (scope : Z -> M A) : M A :=
  hdc <- CALL_HANDLE_WINAPI (GetDC hwnd) ;;
  scope_exit (oscall (ReleaseDC hwnd hdc) ;; ret tt) (scope hdc).

(** Modelled from the spec: a [GDIObjectDeleter] local calls
    [DeleteObject] on its handle when the scope is left. *)
Definition GDIObjectDeleter {A} (h : Z) (scope : M A) : M A :=
  scope_exit (oscall (DeleteObject h) ;; ret tt) scope.

(** Modelled from the spec: [SELECT_RESTORE_OBJECT(hdc, obj)] selects
    [obj] into [hdc] and selects the displaced object again when the
    scope is left (section 4.1: "device-context state is restored
    before the handler returns"). *)
Definition SELECT_RESTORE_OBJECT {A} (hdc obj : Z) (scope : M A) : M A :=
  prev <- CALL_HANDLE_WINAPI (SelectObject hdc obj) ;;
  scope_exit (oscall (SelectObject hdc prev) ;; ret tt) scope.

(** Two arguments of one call, each with an effect: evaluated in the
    order the compiler has chosen. *)
Definition eval_args {A B} (a : M A) (b : M B) : M (A * B) :=
  fun w => match arg_order (platform w) with
           | LeftToRight => (x <- a ;; y <- b ;; ret (x, y)) w
           | RightToLeft => (y <- b ;; x <- a ;; ret (x, y)) w
           end.

(** [void GTLMainWindow::captureScreen()]

    The two [GetSystemMetrics] calls are arguments of the [StretchBlt]
    call: both are made before it, in either order ([eval_args]); the
    other arguments are constants and reads of locals. *)
Definition captureScreen : M unit :=
  hwnd <- this_hwnd ;;
  GET_AND_RELEASE_HDC NULL (fun hdcScreen =>
  GET_AND_RELEASE_HDC hwnd (fun hdcWindow =>
  hdcMemDC <- CALL_HANDLE_WINAPI (CreateCompatibleDC hdcWindow) ;;
  GDIObjectDeleter hdcMemDC (
  CALL_BOOL_WINAPI (GetClientRect hwnd) ;;
  rcClient <- (fun w => (Ok (clientRect (platform w)), w)) ;;
  hbmScreenshot <- CALL_HANDLE_WINAPI
    (CreateCompatibleBitmap hdcWindow
       (sub32 (right rcClient) (left rcClient))
       (sub32 (bottom rcClient) (top rcClient))) ;;
  GDIObjectDeleter hbmScreenshot (
  SELECT_RESTORE_OBJECT hdcMemDC hbmScreenshot (
  oscall (SetStretchBltMode hdcMemDC HALFTONE) ;;
  screen <- eval_args (oscall (GetSystemMetrics SM_CXSCREEN))
                      (oscall (GetSystemMetrics SM_CYSCREEN)) ;;
  CALL_BOOL_WINAPI
    (StretchBlt hdcMemDC 0 0 (right rcClient) (bottom rcClient)
                hdcScreen 0 0 (fst screen) (snd screen) SRCCOPY) ;;
  CALL_BOOL_WINAPI
    (BitBlt hdcWindow 0 0 (right rcClient) (bottom rcClient)
            hdcMemDC 0 0 SRCCOPY)))))).

(** [void GTLMainWindow::onPaint()] *)
Definition onPaint : M unit :=
  hwnd <- this_hwnd ;;
  hdc <- CALL_HANDLE_WINAPI (BeginPaint hwnd) ;;
  ps_rcPaint <- (fun w => (Ok (rcPaint (platform w)), w)) ;;
  (oscall (FillRect hdc ps_rcPaint (COLOR_WINDOW + 1)) ;;
   hFont <- oscall (GetStockObject SYSTEM_FONT) ;;
   SELECT_RESTORE_OBJECT hdc hFont (
   CALL_BOOL_WINAPI (TextOut hdc 10 10 "Sample text" 11))) ;;
  oscall (EndPaint hwnd) ;;
  ret tt.

(** What [onHotKey] streams:
    [L"hotkey:" " id=" << id << " fsModifiers=" << fsModifiers << " vk=" << vk]. *)
Definition hotkey_line (id fsModifiers vk : Z) : TraceLine :=
  Line [Text "hotkey: id="; Dec id; Text " fsModifiers="; Dec fsModifiers;
        Text " vk="; Dec vk].

(** What [onKeyDown] streams:
    [L"onKeyDown:" << std::hex << TRVAL(wParam) << TRVAL(lParam) << std::dec],
    where [TRVAL(expr)] is [L" " WIDE_STRINGIZE(expr) L"=" << (expr)]. *)
Definition keydown_line (wParam lParam : Z) : TraceLine :=
  Line [Text "onKeyDown:"; Text " wParam="; Hex wParam;
        Text " lParam="; Hex lParam].

(** [void GTLMainWindow::onHotKey(WPARAM id, WPARAM fsModifiers, WPARAM vk)] *)
Definition onHotKey (id fsModifiers vk : Z) : M unit :=
  TRACE2 (hotkey_line id fsModifiers vk) ;;
  if id =? HOTKEY_ID_F5 then captureScreen else ret tt.

(** The character constant ['Q']. *)
Definition KEY_Q : Z := code "Q"%char.

(** [bool GTLMainWindow::onKeyDown(WPARAM wParam, LPARAM lParam)] *)
Definition onKeyDown (wParam lParam : Z) : M bool :=
  TRACE2 (keydown_line wParam lParam) ;;
  if wParam =? KEY_Q then
    TRACE2 (Line [Text "Saw Q keypress."]) ;;
    hwnd <- this_hwnd ;;
    oscall (PostMessage hwnd WM_CLOSE 0 0) ;;
    ret true
  else
    ret false.

Section MainWindow.

(** [BaseWindow::handleMessage] is declared in a header that is not
    among the sources; the handler takes it as a parameter. *)
Variable BaseWindow_handleMessage : Z -> Z -> Z -> M Z.

(** [LRESULT GTLMainWindow::handleMessage(UINT uMsg, WPARAM wParam, LPARAM lParam)] *)
Definition handleMessage (uMsg wParam lParam : Z) : M Z :=
  if uMsg =? WM_CREATE then
    hwnd <- this_hwnd ;;
    hInst <- oscall (GetModuleHandle NULL) ;;
    icon <- oscall (LoadIcon hInst 1) ;;
    oscall (SendMessage hwnd WM_SETICON ICON_SMALL icon) ;;
    oscall (SendMessage hwnd WM_SETICON ICON_BIG icon) ;;
    CALL_BOOL_WINAPI (RegisterHotKey hwnd HOTKEY_ID_F5 0 VK_F5) ;;
    CALL_BOOL_WINAPI (RegisterHotKey hwnd HOTKEY_ID_UP 0 VK_UP) ;;
    ret 0
  else if uMsg =? WM_DESTROY then
    TRACE2 (Line [Text "received WM_DESTROY"]) ;;
    hwnd <- this_hwnd ;;
    CALL_BOOL_WINAPI (UnregisterHotKey hwnd HOTKEY_ID_F5) ;;
    CALL_BOOL_WINAPI (UnregisterHotKey hwnd HOTKEY_ID_UP) ;;
    oscall (PostQuitMessage 0) ;;
    ret 0
  else if uMsg =? WM_PAINT then
    onPaint ;;
    ret 0
  else if uMsg =? WM_HOTKEY then
    onHotKey wParam (LOWORD lParam) (HIWORD lParam) ;;
    ret 0
  else if uMsg =? WM_KEYDOWN then
    handled <- onKeyDown wParam lParam ;;
    if handled then ret 0
    else BaseWindow_handleMessage uMsg wParam lParam
  else
    BaseWindow_handleMessage uMsg wParam lParam.

End MainWindow.

(** [static int envIntOr(char const *envvar, int defaultValue)] *)
Definition envIntOr (env : Environ) (envvar : string) (defaultValue : Z) : option Z :=
  match getenv env envvar with
  | Some value => atoi value
  | None => Some defaultValue
  end.

(** ** Default handling, the window procedure and the message loop *)

(** Default handling that has no effect the model tracks. *)
Definition DefWindowProc_plain (uMsg wParam lParam : Z) : M Z :=
  oscall (DefWindowProc uMsg wParam lParam).

(** Modelled from the spec: [BaseWindow::handleMessage] is not among
    the sources; by section 4.1 an event without a handler "falls
    through to default system handling".  The system's default for
    [WM_CLOSE] is to destroy the window, which delivers [WM_DESTROY] to
    the window's handler before the window ceases to exist. *)
Definition BaseWindow_handleMessage (uMsg wParam lParam : Z) : M Z :=
  if uMsg =? WM_CLOSE then
    hwnd <- this_hwnd ;;
    (fun w => (Ok tt, attempt (handleMessage DefWindowProc_plain WM_DESTROY 0 0) w)) ;;
    oscall (DestroyWindow hwnd) ;;
    ret 0
  else
    DefWindowProc_plain uMsg wParam lParam.

(** The window procedure: the handler, as one operation. *)
Definition WindowProc (msg : MSG) : World -> World :=
  attempt (handleMessage BaseWindow_handleMessage
             (message msg) (wParam msg) (lParam msg)).

(** Modelled from the spec: [BaseWindow::createWindow] is not among
    the sources; by section 2 it "creates the window", during which
    the system delivers [WM_CREATE] to the handler. *)
Definition createWindow (lpWindowName : string) (x y nWidth nHeight dwStyle : Z)
  : M unit :=
  hwnd <- CALL_HANDLE_WINAPI
            (CreateWindowEx lpWindowName dwStyle x y nWidth nHeight) ;;
  (fun w => (Ok tt, WindowProc (mkMSG WM_CREATE 0 0) (set_hwnd hwnd w))).

(** [GetMessage]: [None] when the call never returns (an empty queue
    and no quit request); otherwise the return value, the message and
    the world after the call.  The return value is -1 on failure, 0 for
    [WM_QUIT], positive otherwise. *)
Definition getMessage (w : World) : option (Z * MSG * World) :=
  let record r w' := set_oslog ((GetMessage, r) :: oslog w') w' in
  if fails w GetMessage then Some (-1, mkMSG 0 0 0, record (-1) w)
  else match msgq w with
       | m :: q =>
           let r := if message m =? WM_QUIT then 0 else 1 in
           Some (r, m, record r (set_msgq q w))
       | [] =>
           match quit w with
           | Some code => Some (0, mkMSG WM_QUIT code 0, record 0 w)
           | None => None
           end
       end.

(** [DispatchMessage]: the window procedure runs if the window still
    exists. *)
Definition dispatchMessage (msg : MSG) (w : World) : World :=
  let w1 := attempt (oscall (DispatchMessage msg)) w in
  if wnd_exists w1 then WindowProc msg w1 else w1.

Inductive LoopEnd : Type :=
| LoopExit (w : World)      (* [GetMessage] returned zero or less *)
| LoopBlocked (w : World)   (* [GetMessage] never returns *)
| LoopFuel (w : World).     (* more iterations than [fuel] *)

(** [while (GetMessage(&msg, NULL, 0, 0) > 0) { TranslateMessage(&msg); DispatchMessage(&msg); }] *)
Fixpoint message_loop (fuel : nat) (w : World) : LoopEnd :=
  match fuel with
  | O => LoopFuel w
  | S fuel' =>
      match getMessage w with
      | None => LoopBlocked w
      | Some (r, msg, w1) =>
          if 0 <? r then
            message_loop fuel'
              (dispatchMessage msg (attempt (oscall (TranslateMessage msg)) w1))
          else LoopExit w1
      end
  end.

Inductive Outcome : Type :=
| Exited (code : Z)       (* [wWinMain] returned [code] *)
| AssertionFailed         (* the [assert] at its start failed *)
| Undefined               (* [atoi] on a value outside [int] *)
| Blocked                 (* waiting for a message for ever *)
| OutOfFuel.

(** [int WINAPI wWinMain(HINSTANCE hInstance, HINSTANCE hPrevInstance, PWSTR pCmdLine, int nCmdShow)]

    [hPrevInstance] and [pCmdLine] are not used.  The creation of the
    window is one operation: when a checked call in it fails, what is
    left of it is given up and [wWinMain] goes on.  [fuel] bounds the
    iterations of the message loop. *)
Definition wWinMain (fuel : nat) (hInstance nCmdShow : Z) (w : World)
  : Outcome * World :=
  let w0 := attempt (oscall (GetModuleHandle NULL)) w in
  if negb (hInstance =? hModule (platform w)) then (AssertionFailed, w0)
  else
    match envIntOr (environ (platform w)) "TRACE" 1 with
    | None => (Undefined, w0)
    | Some level =>
        let w1 := set_tracingLevel level w0 in
        let w2 := attempt (createWindow "Game TODO List" 200 200 400 400
                             WS_OVERLAPPEDWINDOW) w1 in
        let w3 := attempt (TRACE2 (Line [Text "Calling ShowWindow"]) ;;
                           hwnd <- this_hwnd ;;
                           oscall (ShowWindow hwnd nCmdShow)) w2 in
        match message_loop fuel w3 with
        | LoopExit w4 =>
            (Exited 0, attempt (TRACE2 (Line [Text "Returning from main"])) w4)
        | LoopBlocked w4 => (Blocked, w4)
        | LoopFuel w4 => (OutOfFuel, w4)
        end
    end.

(** A world before the program has done anything. *)
Definition initial_world (p : Platform) : World :=
  mkWorld p 1 NULL [] [] [] 1%positive [] [] None false.

Definition no_faults : nat -> OsCall -> bool := fun _ _ => false.

(** A keyboard on which the letter keys give their lower-case letters
    and no other key gives a character. *)
Definition letter_keys (m : MSG) : KeyChar :=
  if (65 <=? wParam m) && (wParam m <=? 90) then Char (wParam m + 32) else NoChar.

(** A platform with a given environment and failure pattern: module
    handle 0x400000, a 384 by 361 client area, a 1920 by 1080 screen,
    arguments evaluated from the last to the first (as g++ does),
    letter keys. *)
Definition platform_with (env : Environ) (f : nat -> OsCall -> bool) : Platform :=
  mkPlatform env 4194304 f (mkRECT 0 0 384 361) (mkRECT 0 0 384 361)
             (fun i => if i =? SM_CXSCREEN then 1920 else 1080)
             RightToLeft letter_keys.

Definition quiet_platform (env : Environ) : Platform := platform_with env no_faults.

(** ** Notions used in the statements *)

(** The world a loop ended in. *)
Definition world_of (e : LoopEnd) : World :=
  match e with LoopExit w | LoopBlocked w | LoopFuel w => w end.

(** A computation keeps a relation between the world before and the
    world after. *)
Definition respects (R : World -> World -> Prop) {A} (m : M A) : Prop :=
  forall w, R w (snd (m w)).

(** Every call. *)
Definition all_calls (c : OsCall) : bool := true.

(** Graphics calls. *)
Definition is_gdi (c : OsCall) : bool :=
  match c with
  | GetDC _ | ReleaseDC _ _ | CreateCompatibleDC _ | DeleteObject _
  | GetClientRect _ | CreateCompatibleBitmap _ _ _ | SelectObject _ _
  | SetStretchBltMode _ _ | GetSystemMetrics _
  | StretchBlt _ _ _ _ _ _ _ _ _ _ _ | BitBlt _ _ _ _ _ _ _ _ _
  | BeginPaint _ | EndPaint _ | FillRect _ _ _ | GetStockObject _
  | TextOut _ _ _ _ _ => true
  | _ => false
  end.

(** Calls made through [CALL_BOOL_WINAPI] or [CALL_HANDLE_WINAPI]
    ([GetDC] inside [GET_AND_RELEASE_HDC], [CreateWindowEx] inside
    [createWindow]). *)
Definition is_checked (c : OsCall) : bool :=
  match c with
  | GetDC _ | CreateCompatibleDC _ | GetClientRect _
  | CreateCompatibleBitmap _ _ _ | StretchBlt _ _ _ _ _ _ _ _ _ _ _
  | BitBlt _ _ _ _ _ _ _ _ _ | BeginPaint _ | TextOut _ _ _ _ _
  | RegisterHotKey _ _ _ _ | UnregisterHotKey _ _
  | CreateWindowEx _ _ _ _ _ _ => true
  | _ => false
  end.

(** Calls made as plain statements or expressions: nothing inspects
    the result for failure. *)
Definition is_direct (c : OsCall) : bool :=
  match c with
  | ReleaseDC _ _ | DeleteObject _ | SetStretchBltMode _ _
  | GetSystemMetrics _ | EndPaint _ | FillRect _ _ _ | GetStockObject _
  | GetModuleHandle _ | LoadIcon _ _ | SendMessage _ _ _ _
  | PostMessage _ _ _ _ | PostQuitMessage _ | DestroyWindow _
  | ShowWindow _ _ | GetMessage | TranslateMessage _ | DispatchMessage _
  | DefWindowProc _ _ _ => true
  | _ => false
  end.

(** Does the value a call returned signal failure, by the documented
    contract of the function?  A null handle or [FALSE] or zero for
    most; -1 for [GetMessage]; [EndPaint], [SendMessage],
    [PostQuitMessage], [ShowWindow], [TranslateMessage],
    [DispatchMessage] and [DefWindowProc] have no failure signal. *)
Definition failure_return (c : OsCall) (r : Z) : bool :=
  match c with
  | EndPaint _ | SendMessage _ _ _ _ | PostQuitMessage _ | ShowWindow _ _
  | TranslateMessage _ | DispatchMessage _ | DefWindowProc _ _ _ => false
  | GetMessage => r =? -1
  | _ => r =? 0
  end.

(** What a run added to the call history and to the diagnostic
    stream, newest first. *)
Definition added (w w' : World) (calls : list (OsCall * Z)) (lines : list TraceLine)
  : Prop :=
  oslog w' = calls ++ oslog w /\ wcerr w' = lines ++ wcerr w.

(** Every failure return among [calls] has its report among [lines]. *)
Definition every_failure_reported (calls : list (OsCall * Z)) (lines : list TraceLine)
  : Prop :=
  forall c r, In (c, r) calls -> failure_return c r = true ->
              In (ApiFailure (api_name c)) lines.

(** The same for the calls made through the checked wrappers only. *)
Definition checked_failures_reported (calls : list (OsCall * Z)) (lines : list TraceLine)
  : Prop :=
  forall c r, In (c, r) calls -> failure_return c r = true ->
              is_direct c = false -> In (ApiFailure (api_name c)) lines.

(** Every report among [lines] is that of a failed call that was not
    made directly. *)
Definition reports_are_of_checked_calls (calls : list (OsCall * Z)) (lines : list TraceLine)
  : Prop :=
  forall name, In (ApiFailure name) lines ->
    exists c, In (c, 0) calls /\ api_name c = name /\ is_direct c = false.

(** With tracing level one or more, a step reports the failures of
    the checked calls and of no others. *)
Definition reported (w w' : World) : Prop :=
  g_tracingLevel w' = g_tracingLevel w /\
  (1 <= g_tracingLevel w ->
   exists calls lines, added w w' calls lines /\
     checked_failures_reported calls lines /\
     reports_are_of_checked_calls calls lines).

(** Nothing after the assignment in [wWinMain] changes the platform or
    the tracing level, and with a level below one nothing is written to
    the diagnostic stream. *)
Definition stable (w w' : World) : Prop :=
  platform w' = platform w /\
  g_tracingLevel w' = g_tracingLevel w /\
  (g_tracingLevel w <= 0 -> wcerr w' = wcerr w).

(** Graphics work leaves the window, the hot keys and the message
    queue alone. *)
Definition same_core (w w' : World) : Prop :=
  platform w' = platform w /\ m_hwnd w' = m_hwnd w /\
  hotkeys w' = hotkeys w /\ msgq w' = msgq w /\ quit w' = quit w /\
  wnd_exists w' = wnd_exists w.

Inductive ResEvent : Type :=
| Acquire (r : Resource)
| Release (r : Resource).

(** What a recorded call did to the resources the program holds. *)
Definition res_event (e : OsCall * Z) : list ResEvent :=
  match e with
  | (GetDC _, h) => if h =? 0 then [] else [Acquire (DC h)]
  | (ReleaseDC _ h, _) => [Release (DC h)]
  | (CreateCompatibleDC _, h) => if h =? 0 then [] else [Acquire (GdiObject h)]
  | (CreateCompatibleBitmap _ _ _, h) => if h =? 0 then [] else [Acquire (GdiObject h)]
  | (DeleteObject h, _) => [Release (GdiObject h)]
  | (SelectObject hdc h, r) =>
      if r =? 0 then []
      else if h =? DEFAULT_OBJECT then [Release (Selection hdc)]
           else [Acquire (Selection hdc)]
  | (BeginPaint hwnd, h) => if h =? 0 then [] else [Acquire (PaintDC hwnd)]
  | (EndPaint hwnd, _) => [Release (PaintDC hwnd)]
  | _ => []
  end.

(** Resource events of a history given oldest first. *)
Definition res_events (calls : list (OsCall * Z)) : list ResEvent :=
  flat_map res_event calls.

Definition acquired (evs : list ResEvent) : list Resource :=
  flat_map (fun e => match e with Acquire r => [r] | Release _ => [] end) evs.

(** All acquisitions, then the releases of the same resources in the
    opposite order, each resource once. *)
Definition bracketed (evs : list ResEvent) : Prop :=
  evs = map Acquire (acquired evs) ++ map Release (rev (acquired evs)) /\
  NoDup (acquired evs).

(** The five resources of one capture, in the order the source
    acquires them: [hdcScreen], [hdcWindow], [hdcMemDC],
    [hbmScreenshot] and the selection of the bitmap into [hdcMemDC]. *)
Definition capture_resources (w : World) : list Resource :=
  let p := next_handle w in
  [DC (Z.pos p~0); DC (Z.pos (Pos.succ p)~0);
   GdiObject (Z.pos (Pos.succ (Pos.succ p))~0);
   GdiObject (Z.pos (Pos.succ (Pos.succ (Pos.succ p)))~0);
   Selection (Z.pos (Pos.succ (Pos.succ p))~0)].

(** Capture invocations in a row; between two of them the platform
    (the window's size, which calls fail) may have changed. *)
Definition with_platform (p : Platform) (w : World) : World :=
  mkWorld p (g_tracingLevel w) (m_hwnd w) (wcerr w) (oslog w) (live w)
          (next_handle w) (hotkeys w) (msgq w) (quit w) (wnd_exists w).

Fixpoint captures (ps : list Platform) (w : World) : World :=
  match ps with
  | [] => w
  | p :: ps' => captures ps' (attempt captureScreen (with_platform p w))
  end.

(** ** Worlds and platforms for concrete runs *)

(** The world after a start in which nothing failed, histories
    cleared: the window (handle 2) exists and both hot keys are
    registered. *)
Definition ready_world (p : Platform) : World :=
  mkWorld p 1 2 [] [] [] 2%positive
          [mkHotKey 2 HOTKEY_ID_UP 0 VK_UP; mkHotKey 2 HOTKEY_ID_F5 0 VK_F5]
          [] None true.

Definition stretch_mode_fails : nat -> OsCall -> bool :=
  fun _ c => match c with SetStretchBltMode _ _ => true | _ => false end.

Definition bitmap_fails : nat -> OsCall -> bool :=
  fun _ c => match c with CreateCompatibleBitmap _ _ _ => true | _ => false end.

(** The two [GetSystemMetrics] calls of a capture with their results,
    oldest first, in the order chosen for the arguments of
    [StretchBlt]. *)
Definition metrics_results (o : ArgOrder) (cx cy : Z) : list (OsCall * Z) :=
  match o with
  | LeftToRight =>
      [(GetSystemMetrics SM_CXSCREEN, cx); (GetSystemMetrics SM_CYSCREEN, cy)]
  | RightToLeft =>
      [(GetSystemMetrics SM_CYSCREEN, cy); (GetSystemMetrics SM_CXSCREEN, cx)]
  end.

Definition metrics_calls (p : Platform) : list (OsCall * Z) :=
  metrics_results (arg_order p) (metrics p SM_CXSCREEN) (metrics p SM_CYSCREEN).

(** The history, oldest first, of a capture in which no call fails. *)
Definition capture_calls (w : World) : list (OsCall * Z) :=
  let rc := clientRect (platform w) in
  let hwnd := m_hwnd w in
  let p := next_handle w in
  let hdcScreen := Z.pos p~0 in
  let hdcWindow := Z.pos (Pos.succ p)~0 in
  let hdcMemDC := Z.pos (Pos.succ (Pos.succ p))~0 in
  let hbmScreenshot := Z.pos (Pos.succ (Pos.succ (Pos.succ p)))~0 in
  [ (GetDC NULL, hdcScreen);
    (GetDC hwnd, hdcWindow);
    (CreateCompatibleDC hdcWindow, hdcMemDC);
    (GetClientRect hwnd, 1);
    (CreateCompatibleBitmap hdcWindow (sub32 (right rc) (left rc))
                            (sub32 (bottom rc) (top rc)), hbmScreenshot);
    (SelectObject hdcMemDC hbmScreenshot, DEFAULT_OBJECT);
    (SetStretchBltMode hdcMemDC HALFTONE, BLACKONWHITE) ]
  ++ metrics_calls (platform w) ++
  [ (StretchBlt hdcMemDC 0 0 (right rc) (bottom rc) hdcScreen 0 0
                (metrics (platform w) SM_CXSCREEN)
                (metrics (platform w) SM_CYSCREEN) SRCCOPY, 1);
    (BitBlt hdcWindow 0 0 (right rc) (bottom rc) hdcMemDC 0 0 SRCCOPY, 1);
    (SelectObject hdcMemDC DEFAULT_OBJECT, DEFAULT_OBJECT);
    (DeleteObject hbmScreenshot, 1);
    (DeleteObject hdcMemDC, 1);
    (ReleaseDC hwnd hdcWindow, 1);
    (ReleaseDC NULL hdcScreen, 1) ].

Definition zero_area_platform : Platform :=
  mkPlatform [] 4194304 no_faults (mkRECT 0 0 0 0) (mkRECT 0 0 0 0)
             (fun i => if i =? SM_CXSCREEN then 1920 else 1080)
             RightToLeft letter_keys.

(** Calls that put pixels somewhere, and what the program has drawn. *)
Definition is_drawing (c : OsCall) : bool :=
  match c with
  | StretchBlt _ _ _ _ _ _ _ _ _ _ _ | BitBlt _ _ _ _ _ _ _ _ _
  | FillRect _ _ _ | TextOut _ _ _ _ _ => true
  | _ => false
  end.

Definition drawn (w : World) : list (OsCall * Z) :=
  filter (fun e => is_drawing (fst e)) (oslog w).

(** No hot key of the window with one of the program's identifiers. *)
Definition no_program_hotkey (hwnd : Z) (table : list HotKey) : Prop :=
  forall k, In k table ->
            is_hotkey hwnd HOTKEY_ID_F5 k = false /\
            is_hotkey hwnd HOTKEY_ID_UP k = false.

(** The key-down event of the Q key. *)
Definition is_quit_key (m : MSG) : bool :=
  (message m =? WM_KEYDOWN) && (wParam m =? KEY_Q).

(** A bound on the iterations a queue causes: a message is one
    iteration, a key press may have a character message posted, one
    more, and a Q key press a close message, one more. *)
Definition message_weight (m : MSG) : nat :=
  1 + (if is_key_press m then 1 else 0) + (if is_quit_key m then 1 else 0).

Fixpoint queue_weight (q : list MSG) : nat :=
  match q with
  | [] => 0
  | m :: q' => message_weight m + queue_weight q'
  end.

(** Messages that reach the loop from outside: [WM_QUIT] and
    [WM_DESTROY] are produced by [PostQuitMessage] and by the
    destruction of the window only. *)
Definition ordinary (m : MSG) : Prop :=
  message m <> WM_QUIT /\ message m <> WM_DESTROY.

(** Both hot keys of the creation handler are in the table. *)
Definition registered (w : World) : Prop :=
  In (mkHotKey (m_hwnd w) HOTKEY_ID_F5 0 VK_F5) (hotkeys w) /\
  In (mkHotKey (m_hwnd w) HOTKEY_ID_UP 0 VK_UP) (hotkeys w).

(** The window is open, and a Q key press or the close message it
    posts is in the queue. *)
Definition closing (w : World) : Prop :=
  wnd_exists w = true /\ registered w /\
  exists m, In m (msgq w) /\ (message m = WM_CLOSE \/ is_quit_key m = true).

(** The window is gone, its hot keys are unregistered and the quit
    request is posted. *)
Definition closed (w : World) : Prop :=
  wnd_exists w = false /\ quit w = Some 0 /\
  no_program_hotkey (m_hwnd w) (hotkeys w).

(** The platform accepts every posted message and every retrieval. *)
Definition queue_works (p : Platform) : Prop :=
  (forall n h m wp lp, faults p n (PostMessage h m wp lp) = false) /\
  (forall n, faults p n GetMessage = false).

Definition retrieval_fails : nat -> OsCall -> bool :=
  fun _ c => match c with GetMessage => true | _ => false end.

(** The up arrow is the hot key of another program: registering it
    fails. *)
Definition up_arrow_taken : nat -> OsCall -> bool :=
  fun _ c => match c with
             | RegisterHotKey _ _ _ vk => vk =? VK_UP
             | _ => false
             end.

(** The world in which the message loop of [wWinMain] starts, from the
    world [w0] after the assertion: the level is assigned, the window
    created and shown. *)
Definition loop_entry (level nCmdShow : Z) (w0 : World) : World :=
  attempt (TRACE2 (Line [Text "Calling ShowWindow"]) ;;
           hwnd <- this_hwnd ;;
           oscall (ShowWindow hwnd nCmdShow))
    (attempt (createWindow "Game TODO List" 200 200 400 400 WS_OVERLAPPEDWINDOW)
       (set_tracingLevel level w0)).

(** The platform lets the window be created and both hot keys be
    registered. *)
Definition startup_works (p : Platform) : Prop :=
  (forall n name style x y w h,
      faults p n (CreateWindowEx name style x y w h) = false) /\
  (forall n h id m v, faults p n (RegisterHotKey h id m v) = false).

(** A message stream: a paint request, the F5 hot key, the A key, the
    Q key and the up-arrow hot key. *)
Definition some_input : list MSG :=
  [mkMSG WM_PAINT 0 0; mkMSG WM_HOTKEY 1 7602176; mkMSG WM_KEYDOWN 65 0;
   mkMSG WM_KEYDOWN 81 1048577; mkMSG WM_HOTKEY 2 2490368].

(** ** Notions used in the further properties *)

(** The history, oldest first, of a paint in which no call fails. *)
Definition paint_calls (w : World) : list (OsCall * Z) :=
  let hwnd := m_hwnd w in
  let hdc := Z.pos (next_handle w)~0 in
  [ (BeginPaint hwnd, hdc);
    (FillRect hdc (rcPaint (platform w)) (COLOR_WINDOW + 1), 1);
    (GetStockObject SYSTEM_FONT, stock_object SYSTEM_FONT);
    (SelectObject hdc (stock_object SYSTEM_FONT), DEFAULT_OBJECT);
    (TextOut hdc 10 10 "Sample text" 11, 1);
    (SelectObject hdc DEFAULT_OBJECT, DEFAULT_OBJECT);
    (EndPaint hwnd, 1) ].

(** The [lParam] of a [WM_HOTKEY] message: the modifiers in the low
    word, the virtual key code in the high word. *)
Definition hotkey_lParam (fsModifiers vk : Z) : Z := fsModifiers + vk * 65536.

Definition is_report (l : TraceLine) : bool :=
  match l with ApiFailure _ => true | Line _ => false end.

(** With a tracing level below two, a step adds failure reports only
    to the diagnostic stream. *)
Definition only_reports (w w' : World) : Prop :=
  g_tracingLevel w' = g_tracingLevel w /\
  (g_tracingLevel w < 2 ->
   exists lines, wcerr w' = lines ++ wcerr w /\
                 Forall (fun l => is_report l = true) lines).

Fixpoint all_space (s : string) : bool :=
  match s with
  | EmptyString => true
  | String c s' => isspace c && all_space s'
  end.

Definition no_leading_digit (s : string) : bool :=
  match s with
  | EmptyString => true
  | String c _ => negb (isdigit c)
  end.

(** * Properties *)

(** ** Concrete runs *)

Example atoi_examples :
  atoi "42" = Some 42 /\ atoi "  +42abc" = Some 42 /\ atoi "-7" = Some (-7) /\
  atoi "abc" = Some 0 /\ atoi "" = Some 0 /\ atoi "99999999999" = None.
Proof. repeat split. Qed.

Example decimal_examples :
  decimal 0 = "0" /\ decimal 42 = "42" /\ decimal (-2147483648) = "-2147483648".
Proof. repeat split. Qed.

(** A capture in which the bitmap cannot be created: the failure is
    reported, the remaining steps are skipped, and what had been
    acquired is given back. *)
Example capture_without_bitmap :
  let w := attempt captureScreen (ready_world (platform_with [] bitmap_fails)) in
  rev (oslog w) =
    [(GetDC 0, 4); (GetDC 2, 6); (CreateCompatibleDC 6, 8); (GetClientRect 2, 1);
     (CreateCompatibleBitmap 6 384 361, 0);
     (DeleteObject 8, 1); (ReleaseDC 2 6, 1); (ReleaseDC 0 4, 1)] /\
  wcerr w = [ApiFailure "CreateCompatibleBitmap"] /\ live w = [].
Proof. vm_compute. repeat split. Qed.

(** A whole run with tracing level 2: the window is created, painted,
    a capture is made, and the Q key ends the run. *)
Example run_until_quit :
  let r := wWinMain 10 4194304 1
             (set_msgq some_input (initial_world (quiet_platform [("TRACE", "2")]))) in
  fst r = Exited 0 /\ wnd_exists (snd r) = false /\ hotkeys (snd r) = [] /\
  live (snd r) = [] /\
  rev (wcerr (snd r)) =
    [Line [Text "Calling ShowWindow"];
     hotkey_line 1 0 116;
     keydown_line 65 0;
     keydown_line 81 1048577;
     Line [Text "Saw Q keypress."];
     hotkey_line 2 0 38;
     Line [Text "received WM_DESTROY"];
     Line [Text "Returning from main"]].
Proof. vm_compute. repeat split. Qed.


(** ** [atoi] on decimal notation *)

Lemma digit_char_isdigit (d : Z) :
  0 <= d <= 9 -> isdigit (digit_char d) = true /\ digit_value (digit_char d) = d.
Proof.
  intros H.
  assert (C : d = 0 \/ d = 1 \/ d = 2 \/ d = 3 \/ d = 4 \/ d = 5 \/ d = 6
              \/ d = 7 \/ d = 8 \/ d = 9) by lia.
  repeat (destruct C as [C | C]; [subst d; split; reflexivity | ]).
  subst d; split; reflexivity.
Qed.

Lemma digits_value_decimal_digits (fuel : nat) :
  forall n acc, 0 <= n < 10 ^ Z.of_nat fuel ->
    digits_value (decimal_digits fuel n acc) 0 = digits_value acc n.
Proof.
  induction fuel as [| fuel IH]; intros n acc Hn.
  - cbn in *. replace n with 0 by lia. reflexivity.
  - assert (Hd : 0 <= n mod 10 <= 9) by (pose proof (Z.mod_pos_bound n 10); lia).
    destruct (digit_char_isdigit _ Hd) as [Hi Hv].
    cbn [decimal_digits].
    destruct (n <? 10) eqn:Hlt.
    + apply Z.ltb_lt in Hlt. cbn [digits_value]. rewrite Hi, Hv.
      rewrite Z.mod_small by lia. f_equal.
    + apply Z.ltb_ge in Hlt.
      rewrite IH.
      * cbn [digits_value]. rewrite Hi, Hv. f_equal.
        pose proof (Z.div_mod n 10). lia.
      * rewrite Nat2Z.inj_succ, Z.pow_succ_r in Hn by lia.
        split; [apply Z.div_pos; lia | apply Z.div_lt_upper_bound; lia].
Qed.

Lemma decimal_digits_head (fuel : nat) :
  forall n acc, 0 <= n ->
    exists c s, decimal_digits (S fuel) n acc = String c s /\ isdigit c = true.
Proof.
  induction fuel as [| fuel IH]; intros n acc Hn.
  - assert (Hd : 0 <= n mod 10 <= 9) by (pose proof (Z.mod_pos_bound n 10); lia).
    exists (digit_char (n mod 10)), acc. cbn.
    split; [destruct (n <? 10); reflexivity | apply digit_char_isdigit, Hd].
  - change (decimal_digits (S (S fuel)) n acc)
      with (if n <? 10 then String (digit_char (n mod 10)) acc
            else decimal_digits (S fuel) (n / 10) (String (digit_char (n mod 10)) acc)).
    destruct (n <? 10) eqn:Hlt.
    + exists (digit_char (n mod 10)), acc. split; [reflexivity |].
      apply digit_char_isdigit. pose proof (Z.mod_pos_bound n 10); lia.
    + apply IH. apply Z.div_pos; lia.
Qed.

Lemma parse_value_digit_start (c : ascii) (s : string) :
  isdigit c = true -> parse_value (String c s) = digits_value (String c s) 0.
Proof.
  intros H.
  destruct c as [[] [] [] [] [] [] [] []]; try discriminate H; reflexivity.
Qed.

Lemma parse_value_decimal (z : Z) :
  - 10 ^ 10 < z < 10 ^ 10 -> parse_value (decimal z) = z.
Proof.
  intros Hz. unfold decimal.
  destruct (z <? 0) eqn:Hneg.
  - apply Z.ltb_lt in Hneg.
    change (parse_value (String "-" (decimal_digits 10 (- z) "")))
      with (- digits_value (decimal_digits 10 (- z) "") 0).
    rewrite digits_value_decimal_digits by (change (Z.of_nat 10) with 10; lia).
    cbn. lia.
  - apply Z.ltb_ge in Hneg.
    destruct (decimal_digits_head 9 z "" Hneg) as (c & s & E & Hc).
    rewrite E, (parse_value_digit_start _ _ Hc), <- E.
    rewrite digits_value_decimal_digits by (change (Z.of_nat 10) with 10; lia).
    reflexivity.
Qed.

Lemma atoi_decimal (z : Z) :
  INT_MIN <= z <= INT_MAX -> atoi (decimal z) = Some z.
Proof.
  intros Hz. unfold atoi, INT_MIN, INT_MAX in *.
  rewrite parse_value_decimal by lia.
  unfold in_int_range, INT_MIN, INT_MAX.
  replace (-2147483648 <=? z) with true by (symmetry; apply Z.leb_le; lia).
  replace (z <=? 2147483647) with true by (symmetry; apply Z.leb_le; lia).
  reflexivity.
Qed.

Lemma digits_value_no_digit (c : ascii) (s : string) (acc : Z) :
  isdigit c = false -> digits_value (String c s) acc = acc.
Proof. intros H. cbn. rewrite H. reflexivity. Qed.

Lemma parse_value_no_number (s : string) :
  has_number s = false -> parse_value s = 0.
Proof.
  unfold has_number, parse_value.
  destruct (skip_space s) as [| c r]; [reflexivity |].
  destruct c as [[] [] [] [] [] [] [] []];
    try (intros H; rewrite digits_value_no_digit by exact H; reflexivity);
    (destruct r as [| c' r'];
     [reflexivity
     | intros H; rewrite digits_value_no_digit by exact H; reflexivity]).
Qed.

Lemma atoi_no_number (s : string) : has_number s = false -> atoi s = Some 0.
Proof.
  intros H. unfold atoi. rewrite (parse_value_no_number s H). reflexivity.
Qed.

(** ** Frame reasoning *)

Ltac split_ifs :=
  repeat match goal with
         | |- context [if ?b then _ else _] => destruct b eqn:?
         end.

Lemma os_exec_frame (c : OsCall) (w : World) :
  let w' := snd (os_exec c w) in
  platform w' = platform w /\ g_tracingLevel w' = g_tracingLevel w /\
  wcerr w' = wcerr w /\ m_hwnd w' = m_hwnd w /\ oslog w' = oslog w.
Proof.
  destruct c; cbn; split_ifs; cbn; auto.
  destruct (char_message (platform w) msg); cbn; auto.
Qed.

Lemma os_exec_gdi_frame (c : OsCall) (w : World) :
  is_gdi c = true ->
  let w' := snd (os_exec c w) in
  hotkeys w' = hotkeys w /\ msgq w' = msgq w /\ quit w' = quit w /\
  wnd_exists w' = wnd_exists w.
Proof.
  destruct c; try discriminate; intros _; cbn; split_ifs; cbn; auto.
Qed.

Section Combinators.

Variable R : World -> World -> Prop.
Hypothesis R_refl : forall w, R w w.
Hypothesis R_trans : forall a b c, R a b -> R b c -> R a c.

Lemma respects_ret {A} (a : A) : respects R (ret a).
Proof. intros w. apply R_refl. Qed.

Lemma respects_abort {A} : respects R (@abort A).
Proof. intros w. apply R_refl. Qed.

Lemma respects_read {A} (f : World -> A) : respects R (fun w => (Ok (f w), w)).
Proof. intros w. apply R_refl. Qed.

Lemma respects_bind {A B} (m : M A) (k : A -> M B) :
  respects R m -> (forall a, respects R (k a)) -> respects R (bind m k).
Proof.
  intros Hm Hk w. unfold bind. specialize (Hm w).
  destruct (m w) as [[a |] w1]; cbn in *.
  - eapply R_trans; [exact Hm | apply Hk].
  - exact Hm.
Qed.

Lemma respects_scope_exit {A} (dtor : M unit) (body : M A) :
  respects R dtor -> respects R body -> respects R (scope_exit dtor body).
Proof.
  intros Hd Hb w. unfold scope_exit. specialize (Hb w).
  destruct (body w) as [r w1]; cbn in *.
  eapply R_trans; [exact Hb | apply Hd].
Qed.

Lemma respects_eval_args {A B} (a : M A) (b : M B) :
  respects R a -> respects R b -> respects R (eval_args a b).
Proof.
  intros Ha Hb w. unfold eval_args.
  destruct (arg_order (platform w)).
  - revert w. apply respects_bind; [exact Ha | intros x].
    apply respects_bind; [exact Hb | intros y]. apply respects_ret.
  - revert w. apply respects_bind; [exact Hb | intros y].
    apply respects_bind; [exact Ha | intros x]. apply respects_ret.
Qed.

(** For a relation that every call and every trace line keeps, the
    checked wrappers keep it too. *)
Section Simple.

Variable ok : OsCall -> bool.
Hypothesis S_oscall : forall c w, ok c = true -> R w (snd (oscall c w)).
Hypothesis S_TRACE : forall level msg w, 1 <= level -> R w (snd (TRACE level msg w)).

Lemma simple_CALL_HANDLE c w : ok c = true -> R w (snd (CALL_HANDLE_WINAPI c w)).
Proof.
  intros H. revert w. unfold CALL_HANDLE_WINAPI.
  apply respects_bind; [intros w; apply S_oscall, H |].
  intros h. destruct (h =? 0).
  - apply respects_bind; [intros w; apply S_TRACE; lia | intros _; apply respects_abort].
  - apply respects_ret.
Qed.

Lemma simple_CALL_BOOL c w : ok c = true -> R w (snd (CALL_BOOL_WINAPI c w)).
Proof.
  intros H. revert w. unfold CALL_BOOL_WINAPI.
  apply respects_bind; [intros w; apply S_oscall, H |].
  intros h. destruct (h =? 0).
  - apply respects_bind; [intros w; apply S_TRACE; lia | intros _; apply respects_abort].
  - apply respects_ret.
Qed.

Lemma simple_SELECT_RESTORE {A} hdc obj (scope : M A) :
  (forall h, ok (SelectObject hdc h) = true) ->
  respects R scope -> respects R (SELECT_RESTORE_OBJECT hdc obj scope).
Proof.
  intros H Hs. unfold SELECT_RESTORE_OBJECT.
  apply respects_bind; [intros w; apply simple_CALL_HANDLE, H |].
  intros prev. apply respects_scope_exit; [| exact Hs].
  apply respects_bind; [intros w; apply S_oscall, H | intros _; apply respects_ret].
Qed.

End Simple.

(** The program, over a relation that the calls it makes directly,
    its checked calls and its trace lines keep. *)
Section Program.

Variable direct checked : OsCall -> bool.
Hypothesis R_oscall : forall c w, direct c = true -> R w (snd (oscall c w)).
Hypothesis R_CALL_HANDLE :
  forall c w, checked c = true -> R w (snd (CALL_HANDLE_WINAPI c w)).
Hypothesis R_CALL_BOOL :
  forall c w, checked c = true -> R w (snd (CALL_BOOL_WINAPI c w)).
Hypothesis R_SELECT_RESTORE :
  forall hdc obj (scope : M unit),
    respects R scope -> respects R (SELECT_RESTORE_OBJECT hdc obj scope).
Hypothesis R_TRACE2 : forall items w, R w (snd (TRACE2 (Line items) w)).

Lemma respects_oscall c : direct c = true -> respects R (oscall c).
Proof. intros H w. apply R_oscall, H. Qed.

Lemma respects_CALL_HANDLE c : checked c = true -> respects R (CALL_HANDLE_WINAPI c).
Proof. intros H w. apply R_CALL_HANDLE, H. Qed.

Lemma respects_CALL_BOOL c : checked c = true -> respects R (CALL_BOOL_WINAPI c).
Proof. intros H w. apply R_CALL_BOOL, H. Qed.

Lemma respects_TRACE2 items : respects R (TRACE2 (Line items)).
Proof. intros w. apply R_TRACE2. Qed.

Ltac frame :=
  repeat first
    [ apply respects_ret | apply respects_abort | apply respects_read
    | apply respects_TRACE2
    | apply respects_CALL_HANDLE; solve [auto]
    | apply respects_CALL_BOOL; solve [auto]
    | apply respects_oscall; solve [auto]
    | apply R_SELECT_RESTORE
    | apply respects_scope_exit
    | apply respects_eval_args
    | apply respects_bind; [ | intro ]
    | match goal with
      | |- respects R (if ?b then _ else _) => destruct b
      end ].

Section Gdi.

Hypothesis gdi_direct :
  forall c, is_gdi c = true -> is_direct c = true -> direct c = true.
Hypothesis gdi_checked :
  forall c, is_gdi c = true -> is_checked c = true -> checked c = true.

Lemma respects_captureScreen : respects R captureScreen.
Proof.
  unfold captureScreen, GET_AND_RELEASE_HDC, GDIObjectDeleter, this_hwnd.
  frame.
Qed.

Lemma respects_onPaint : respects R onPaint.
Proof.
  unfold onPaint, this_hwnd. frame.
Qed.

End Gdi.

Section WholeProgram.

Hypothesis all_direct : forall c, is_direct c = true -> direct c = true.
Hypothesis all_checked : forall c, is_checked c = true -> checked c = true.
Hypothesis R_set_hwnd : forall h w, R w (set_hwnd h w).
Hypothesis R_getMessage :
  forall w r m w', getMessage w = Some (r, m, w') -> R w w'.

Lemma respects_onHotKey id fsModifiers vk : respects R (onHotKey id fsModifiers vk).
Proof.
  unfold onHotKey. apply respects_bind; [apply respects_TRACE2 | intros _].
  destruct (id =? HOTKEY_ID_F5); [| apply respects_ret].
  apply respects_captureScreen; auto.
Qed.

Lemma respects_onKeyDown wParam lParam : respects R (onKeyDown wParam lParam).
Proof. unfold onKeyDown, this_hwnd. frame. Qed.

Lemma respects_handleMessage base uMsg wParam lParam :
  (forall u wp lp, respects R (base u wp lp)) ->
  respects R (handleMessage base uMsg wParam lParam).
Proof.
  intros Hbase. unfold handleMessage.
  destruct (uMsg =? WM_CREATE); [unfold this_hwnd; frame |].
  destruct (uMsg =? WM_DESTROY); [unfold this_hwnd; frame |].
  destruct (uMsg =? WM_PAINT).
  { apply respects_bind; [apply respects_onPaint; auto | intros _; apply respects_ret]. }
  destruct (uMsg =? WM_HOTKEY).
  { apply respects_bind; [apply respects_onHotKey | intros _; apply respects_ret]. }
  destruct (uMsg =? WM_KEYDOWN); [| apply Hbase].
  apply respects_bind; [apply respects_onKeyDown |].
  intros [|]; [apply respects_ret | apply Hbase].
Qed.

Lemma respects_DefWindowProc_plain u wp lp : respects R (DefWindowProc_plain u wp lp).
Proof. unfold DefWindowProc_plain. frame. Qed.

Lemma respects_BaseWindow_handleMessage uMsg wParam lParam :
  respects R (BaseWindow_handleMessage uMsg wParam lParam).
Proof.
  unfold BaseWindow_handleMessage.
  destruct (uMsg =? WM_CLOSE); [| apply respects_DefWindowProc_plain].
  apply respects_bind; [unfold this_hwnd; apply respects_read | intros hwnd].
  apply respects_bind.
  - intros w.
    exact (respects_handleMessage DefWindowProc_plain WM_DESTROY 0 0
             respects_DefWindowProc_plain w).
  - intros _. frame.
Qed.

Lemma R_WindowProc msg w : R w (WindowProc msg w).
Proof.
  unfold WindowProc, attempt.
  apply respects_handleMessage. apply respects_BaseWindow_handleMessage.
Qed.

Lemma respects_createWindow name x y nWidth nHeight dwStyle :
  respects R (createWindow name x y nWidth nHeight dwStyle).
Proof.
  unfold createWindow.
  apply respects_bind; [apply respects_CALL_HANDLE; auto | intros hwnd].
  intros w. cbn.
  eapply R_trans; [apply R_set_hwnd | apply R_WindowProc].
Qed.

Lemma R_dispatchMessage msg w : R w (dispatchMessage msg w).
Proof.
  unfold dispatchMessage, attempt.
  destruct (wnd_exists _).
  - eapply R_trans;
      [apply (R_oscall (DispatchMessage msg)); apply all_direct; reflexivity
      | apply R_WindowProc].
  - apply R_oscall; apply all_direct; reflexivity.
Qed.

Lemma R_message_loop fuel : forall w, R w (world_of (message_loop fuel w)).
Proof.
  induction fuel as [| fuel IH]; intros w; cbn [message_loop].
  - apply R_refl.
  - destruct (getMessage w) as [[[r msg] w1] |] eqn:G; [| apply R_refl].
    apply R_getMessage in G.
    destruct (0 <? r); [| exact G].
    eapply R_trans; [exact G |].
    eapply R_trans; [| apply IH].
    eapply R_trans; [| apply R_dispatchMessage].
    unfold attempt. apply R_oscall; apply all_direct; reflexivity.
Qed.

(** What follows the assignment of the tracing level in [wWinMain]. *)
Lemma R_after_configuration fuel nCmdShow w1 :
  let w2 := attempt (createWindow "Game TODO List" 200 200 400 400
                       WS_OVERLAPPEDWINDOW) w1 in
  let w3 := attempt (TRACE2 (Line [Text "Calling ShowWindow"]) ;;
                     hwnd <- this_hwnd ;;
                     oscall (ShowWindow hwnd nCmdShow)) w2 in
  R w1 (snd match message_loop fuel w3 with
            | LoopExit w4 =>
                (Exited 0, attempt (TRACE2 (Line [Text "Returning from main"])) w4)
            | LoopBlocked w4 => (Blocked, w4)
            | LoopFuel w4 => (OutOfFuel, w4)
            end).
Proof.
  intros w2 w3.
  assert (S12 : R w1 w2) by apply respects_createWindow.
  assert (S23 : R w2 w3).
  { subst w3. unfold attempt, this_hwnd. revert w2 S12. intros w2 _.
    generalize w2. change (respects R (TRACE2 (Line [Text "Calling ShowWindow"]);;
                                        hwnd <- (fun w => (Ok (m_hwnd w), w));;
                                        oscall (ShowWindow hwnd nCmdShow))).
    frame. }
  pose proof (R_message_loop fuel w3) as S3.
  assert (S13 : R w1 (world_of (message_loop fuel w3))) by eauto.
  destruct (message_loop fuel w3) as [w4 | w4 | w4]; cbn [snd world_of] in *; auto.
  eapply R_trans; [exact S13 | apply R_TRACE2].
Qed.

End WholeProgram.

End Program.

End Combinators.

(** ** The tracing level is written once *)

Lemma stable_refl w : stable w w.
Proof. unfold stable; auto. Qed.

Lemma stable_trans a b c : stable a b -> stable b c -> stable a c.
Proof.
  unfold stable. intros (P1 & L1 & W1) (P2 & L2 & W2).
  repeat split; try congruence.
  intros H. rewrite W2, W1; auto. lia.
Qed.

Lemma stable_oscall c w : all_calls c = true -> stable w (snd (oscall c w)).
Proof.
  intros _. unfold oscall. pose proof (os_exec_frame c w) as F.
  destruct (os_exec c w) as [r w1]. cbn in *.
  destruct F as (P & L & W & _). unfold stable. cbn. auto.
Qed.

Lemma stable_TRACE level msg w : 1 <= level -> stable w (snd (TRACE level msg w)).
Proof.
  intros H. unfold stable, TRACE. cbn. repeat split.
  intros Hl. destruct (level <=? g_tracingLevel w) eqn:E; [| reflexivity].
  apply Z.leb_le in E. lia.
Qed.

Lemma stable_TRACE2 items w : stable w (snd (TRACE2 (Line items) w)).
Proof. apply stable_TRACE. lia. Qed.

Lemma stable_set_hwnd h w : stable w (set_hwnd h w).
Proof. unfold stable. cbn. auto. Qed.

Lemma stable_getMessage w r m w' : getMessage w = Some (r, m, w') -> stable w w'.
Proof.
  unfold getMessage. intros H.
  destruct (fails w GetMessage).
  - inversion H; subst. unfold stable; cbn; auto.
  - destruct (msgq w) as [| m0 q].
    + destruct (quit w); inversion H; subst. unfold stable; cbn; auto.
    + inversion H; subst. unfold stable; cbn; auto.
Qed.

Lemma stable_CALL_HANDLE c w :
  all_calls c = true -> stable w (snd (CALL_HANDLE_WINAPI c w)).
Proof.
  apply (simple_CALL_HANDLE stable stable_refl stable_trans all_calls
           stable_oscall stable_TRACE).
Qed.

Lemma stable_CALL_BOOL c w :
  all_calls c = true -> stable w (snd (CALL_BOOL_WINAPI c w)).
Proof.
  apply (simple_CALL_BOOL stable stable_refl stable_trans all_calls
           stable_oscall stable_TRACE).
Qed.

Lemma stable_SELECT_RESTORE hdc obj (scope : M unit) :
  respects stable scope -> respects stable (SELECT_RESTORE_OBJECT hdc obj scope).
Proof.
  apply (simple_SELECT_RESTORE stable stable_refl stable_trans all_calls
           stable_oscall stable_TRACE).
  reflexivity.
Qed.

Lemma stable_WindowProc msg w : stable w (WindowProc msg w).
Proof.
  apply (R_WindowProc stable stable_refl stable_trans all_calls all_calls
           stable_oscall stable_CALL_HANDLE stable_CALL_BOOL
           stable_SELECT_RESTORE stable_TRACE2); reflexivity.
Qed.

Lemma stable_captureScreen w : stable w (snd (captureScreen w)).
Proof.
  apply (respects_captureScreen stable stable_refl stable_trans all_calls all_calls
           stable_oscall stable_CALL_HANDLE stable_CALL_BOOL
           stable_SELECT_RESTORE); reflexivity.
Qed.

Lemma stable_wWinMain fuel nCmdShow w level :
  envIntOr (environ (platform w)) "TRACE" 1 = Some level ->
  let w' := snd (wWinMain fuel (hModule (platform w)) nCmdShow w) in
  g_tracingLevel w' = level /\ (level <= 0 -> wcerr w' = wcerr w).
Proof.
  intros E. unfold wWinMain. rewrite Z.eqb_refl, E. cbn [negb].
  set (w1 := set_tracingLevel level (attempt (oscall (GetModuleHandle NULL)) w)).
  pose proof (R_after_configuration stable stable_refl stable_trans
                all_calls all_calls
                stable_oscall stable_CALL_HANDLE stable_CALL_BOOL
                stable_SELECT_RESTORE stable_TRACE2
                (fun _ _ => eq_refl) (fun _ _ => eq_refl)
                stable_set_hwnd stable_getMessage fuel nCmdShow w1) as S.
  cbv zeta in S. destruct S as (_ & L & W).
  rewrite L. split; [reflexivity |].
  intros H. rewrite W by (cbn; lia). reflexivity.
Qed.

(** ** Graphics work and the rest of the state *)

Lemma same_core_refl w : same_core w w.
Proof. unfold same_core; auto 10. Qed.

Lemma same_core_trans a b c : same_core a b -> same_core b c -> same_core a c.
Proof.
  unfold same_core. intros (A1 & A2 & A3 & A4 & A5 & A6) (B1 & B2 & B3 & B4 & B5 & B6).
  repeat split; congruence.
Qed.

Lemma same_core_oscall c w : is_gdi c = true -> same_core w (snd (oscall c w)).
Proof.
  intros H. unfold oscall.
  pose proof (os_exec_frame c w) as F. pose proof (os_exec_gdi_frame c w H) as G.
  destruct (os_exec c w) as [r w1]. cbn in *.
  destruct F as (P & L & W & Hh & _). destruct G as (G1 & G2 & G3 & G4).
  unfold same_core. cbn. auto 10.
Qed.

Lemma same_core_TRACE level msg w : 1 <= level -> same_core w (snd (TRACE level msg w)).
Proof. intros _. unfold same_core. cbn. auto 10. Qed.

Lemma same_core_captureScreen w : same_core w (snd (captureScreen w)).
Proof.
  apply (respects_captureScreen same_core same_core_refl same_core_trans is_gdi is_gdi
           same_core_oscall).
  - apply (simple_CALL_HANDLE same_core same_core_refl same_core_trans is_gdi
             same_core_oscall same_core_TRACE).
  - apply (simple_CALL_BOOL same_core same_core_refl same_core_trans is_gdi
             same_core_oscall same_core_TRACE).
  - intros hdc obj scope.
    apply (simple_SELECT_RESTORE same_core same_core_refl same_core_trans is_gdi
             same_core_oscall same_core_TRACE). reflexivity.
  - auto.
  - auto.
Qed.

Lemma same_core_onPaint w : same_core w (snd (onPaint w)).
Proof.
  apply (respects_onPaint same_core same_core_refl same_core_trans is_gdi is_gdi
           same_core_oscall).
  - apply (simple_CALL_HANDLE same_core same_core_refl same_core_trans is_gdi
             same_core_oscall same_core_TRACE).
  - apply (simple_CALL_BOOL same_core same_core_refl same_core_trans is_gdi
             same_core_oscall same_core_TRACE).
  - intros hdc obj scope.
    apply (simple_SELECT_RESTORE same_core same_core_refl same_core_trans is_gdi
             same_core_oscall same_core_TRACE). reflexivity.
  - auto.
  - auto.
Qed.

(** ** Symbolic runs *)

Ltac prefix_of L l :=
  lazymatch L with
  | l => constr:(@nil (OsCall * Z))
  | ?x :: ?t => let r := prefix_of t l in constr:(x :: r)
  end.

(** Give the calls a run has added to the history. *)
Ltac give_new_calls :=
  lazymatch goal with
  | |- exists d, ?L = d ++ ?l /\ _ => let d := prefix_of L l in exists d
  end.

Ltac simp_world :=
  repeat (progress (unfold acquire, release, fresh_handle, set_tracingLevel,
                      set_hwnd, set_wcerr, set_oslog, set_live, set_next_handle,
                      set_hotkeys, set_msgq, set_quit, set_wnd_exists;
                    cbn; rewrite ?Pos.eqb_refl, ?Z.eqb_refl)).

(** Case analysis on the next call that the platform may fail, and on
    the order of evaluation where the run depends on it. *)
Ltac split_fault :=
  match goal with
  | |- context [if fails ?w ?c then _ else _] =>
      destruct (fails w c) eqn:?; simp_world
  | |- context [match arg_order ?p with LeftToRight => _ | RightToLeft => _ end] =>
      destruct (arg_order p) eqn:?; simp_world
  end.

Ltac distinct_resources :=
  repeat constructor; cbn;
  intros H; repeat (destruct H as [H | H]); try discriminate H;
  try (injection H; lia); try exact H.

(** Find among the recorded calls one that returned zero and was not
    made directly. *)
Ltac checked_call_failed :=
  right;
  lazymatch goal with
  | |- exists c, In (c, 0) ?L /\ _ =>
      let rec go l :=
        lazymatch l with
        | (?c, 0) :: ?t =>
            first [ exists c; split; [cbn; auto 20 | reflexivity] | go t ]
        | _ :: ?t => go t
        end in
      go L
  end.

Ltac prefix_acquired :=
  first [ exists 5%nat; split; [reflexivity | left; reflexivity]
        | exists 0%nat; split; [reflexivity | checked_call_failed]
        | exists 1%nat; split; [reflexivity | checked_call_failed]
        | exists 2%nat; split; [reflexivity | checked_call_failed]
        | exists 3%nat; split; [reflexivity | checked_call_failed]
        | exists 4%nat; split; [reflexivity | checked_call_failed] ].

Ltac run_capture :=
  unfold attempt, captureScreen, GET_AND_RELEASE_HDC, GDIObjectDeleter,
    SELECT_RESTORE_OBJECT, CALL_HANDLE_WINAPI, CALL_BOOL_WINAPI, eval_args,
    scope_exit, bind, ret, abort, oscall, this_hwnd, TRACE1, TRACE;
  simp_world;
  repeat split_fault.

(** ** The capture operation gives back what it takes *)

Lemma captureScreen_resources (w : World) :
  let w' := attempt captureScreen w in
  exists calls, oslog w' = calls ++ oslog w /\
    bracketed (res_events (rev calls)) /\
    (exists n, acquired (res_events (rev calls)) = firstn n (capture_resources w) /\
               (n = 5%nat \/ exists c, In (c, 0) calls /\ is_direct c = false)) /\
    live w' = live w.
Proof.
  run_capture.
  all: give_new_calls; split; [reflexivity |].
  all: split; [unfold bracketed; cbn; split; [reflexivity | distinct_resources] |].
  all: split; [prefix_acquired | reflexivity].
Qed.

Ltac no_fault H :=
  repeat (progress (unfold fails; cbn; rewrite ?H; simp_world)).

Lemma captureScreen_success (w : World) :
  (forall n c, faults (platform w) n c = false) ->
  oslog (attempt captureScreen w) = rev (capture_calls w) ++ oslog w.
Proof.
  intros H.
  unfold attempt, captureScreen, GET_AND_RELEASE_HDC, GDIObjectDeleter,
    SELECT_RESTORE_OBJECT, CALL_HANDLE_WINAPI, CALL_BOOL_WINAPI, eval_args,
    scope_exit, bind, ret, abort, oscall, this_hwnd, TRACE1, TRACE,
    capture_calls, metrics_calls, metrics_results.
  destruct (arg_order (platform w)) eqn:O;
    repeat (progress (unfold fails; cbn; rewrite ?H, ?O; simp_world));
    reflexivity.
Qed.

Lemma captures_live (ps : list Platform) :
  forall w, live (captures ps w) = live w.
Proof.
  induction ps as [| p ps IH]; intros w; cbn [captures].
  - reflexivity.
  - rewrite IH.
    destruct (captureScreen_resources (with_platform p w)) as (calls & _ & _ & _ & L).
    exact L.
Qed.

(** C2.  Every invocation of [captureScreen], whichever of its calls
    fail and in whichever order the arguments of [StretchBlt] are
    evaluated, adds to the call history a run in which its resources
    (a prefix of: screen DC, window DC, memory DC, bitmap, selection of
    the bitmap) are first acquired and then released, each once, in
    the reverse of the order of acquisition; all five are acquired
    unless a checked call returned zero; the resources held after the
    invocation are those held before it, and so they are after any
    sequence of invocations.  When no call fails, the history is
    [capture_calls], with the two [GetSystemMetrics] calls in the order
    of evaluation, and all five resources are acquired. *)
Theorem C2_capture_releases_in_reverse_order :
  (forall w,
     let w' := attempt captureScreen w in
     exists calls, oslog w' = calls ++ oslog w /\
       bracketed (res_events (rev calls)) /\
       (exists n, acquired (res_events (rev calls))
                  = firstn n (capture_resources w) /\
                  (n = 5%nat \/
                   exists c, In (c, 0) calls /\ is_direct c = false)) /\
       live w' = live w) /\
  (forall ps w, live (captures ps w) = live w) /\
  (forall w, (forall n c, faults (platform w) n c = false) ->
     oslog (attempt captureScreen w) = rev (capture_calls w) ++ oslog w /\
     acquired (res_events (capture_calls w)) = capture_resources w).
Proof.
  split; [exact captureScreen_resources |].
  split; [exact captures_live |].
  intros w H. split; [apply captureScreen_success, H |].
  unfold capture_calls, metrics_calls, metrics_results.
  destruct (arg_order (platform w)); reflexivity.
Qed.

Lemma C2_witness :
  let w := ready_world (platform_with [] no_faults) in
  oslog (attempt captureScreen w) = rev (capture_calls w) ++ oslog w /\
  acquired (res_events (capture_calls w)) = capture_resources w.
Proof.
  intros w.
  apply (proj2 (proj2 C2_capture_releases_in_reverse_order) w).
  intros n c. reflexivity.
Defined.

(** ** Which failures are reported *)

Lemma checked_failure_return c r :
  is_checked c = true -> failure_return c r = (r =? 0) /\ is_direct c = false.
Proof. destruct c; try discriminate; intros _; split; reflexivity. Qed.

Lemma reported_refl w : reported w w.
Proof.
  split; [reflexivity |]. intros _. exists [], []. repeat split.
  - intros c r [].
  - intros name [].
Qed.

Lemma reported_trans a b c : reported a b -> reported b c -> reported a c.
Proof.
  intros (L1 & H1) (L2 & H2). split; [congruence |].
  intros Hl.
  destruct (H1 Hl) as (calls1 & lines1 & (O1 & W1) & A1 & B1).
  destruct H2 as (calls2 & lines2 & (O2 & W2) & A2 & B2); [lia |].
  exists (calls2 ++ calls1), (lines2 ++ lines1). repeat split.
  - rewrite O2, O1. apply app_assoc.
  - rewrite W2, W1. apply app_assoc.
  - intros x r Hin Hf Hd. apply in_or_app.
    apply in_app_or in Hin. destruct Hin as [Hin | Hin]; eauto.
  - intros name Hin. apply in_app_or in Hin.
    destruct Hin as [Hin | Hin];
      [destruct (B2 name Hin) as (x & I & N & D)
      | destruct (B1 name Hin) as (x & I & N & D)];
      exists x; repeat split; auto; apply in_or_app; auto.
Qed.

(** A call that is made directly, or that does not fail. *)
Lemma reported_step c w :
  is_direct c = true \/ failure_return c (fst (os_exec c w)) = false ->
  reported w (snd (oscall c w)).
Proof.
  intros H. unfold oscall. pose proof (os_exec_frame c w) as F.
  destruct (os_exec c w) as [r w1]. cbn in *.
  destruct F as (P & L & W & _ & O).
  split; [exact L |]. intros _.
  exists [(c, r)], []. repeat split; cbn.
  - congruence.
  - exact W.
  - intros x y [E | []] Hf Hd. inversion E; subst. destruct H; congruence.
  - intros name [].
Qed.

Lemma reported_oscall c w : is_direct c = true -> reported w (snd (oscall c w)).
Proof. intros H. apply reported_step. auto. Qed.

Lemma reported_TRACE2 items w : reported w (snd (TRACE2 (Line items) w)).
Proof.
  split; [reflexivity |]. intros _. cbn.
  exists [], (if 2 <=? g_tracingLevel w then [Line items] else []). repeat split.
  - cbn. destruct (2 <=? g_tracingLevel w); reflexivity.
  - intros c r [].
  - intros name Hin. destruct (2 <=? g_tracingLevel w); cbn in Hin.
    + destruct Hin as [E | []]. discriminate E.
    + destruct Hin.
Qed.

(** A checked call: a zero result is reported. *)
Lemma reported_checked_call c w :
  is_direct c = false -> (forall r, failure_return c r = (r =? 0)) ->
  reported w (snd (CALL_HANDLE_WINAPI c w)) /\
  reported w (snd (CALL_BOOL_WINAPI c w)).
Proof.
  intros Hd Hf.
  unfold CALL_HANDLE_WINAPI, CALL_BOOL_WINAPI, bind, oscall.
  pose proof (os_exec_frame c w) as F.
  destruct (os_exec c w) as [r w1]. cbn in *.
  destruct F as (P & L & W & _ & O).
  destruct (r =? 0) eqn:Z0; cbn.
  - apply Z.eqb_eq in Z0. subst r.
    assert (G : forall w2, w2 = set_wcerr
                  (if 1 <=? g_tracingLevel w1
                   then ApiFailure (api_name c) :: wcerr w1 else wcerr w1)
                  (set_oslog ((c, 0) :: oslog w1) w1) -> reported w w2).
    { intros w2 ->. split; [exact L |]. intros Hl.
      exists [(c, 0)], [ApiFailure (api_name c)]. repeat split; cbn.
      - congruence.
      - rewrite L. replace (1 <=? g_tracingLevel w) with true
          by (symmetry; apply Z.leb_le; exact Hl).
        rewrite W. reflexivity.
      - intros x y [E | []] _ _. inversion E; subst. left. reflexivity.
      - intros name [E | []]. inversion E; subst.
        exists c. repeat split; auto. left. reflexivity. }
    split; apply G; reflexivity.
  - assert (G : reported w (set_oslog ((c, r) :: oslog w1) w1)).
    { split; [exact L |]. intros _.
      exists [(c, r)], []. repeat split; cbn.
      - congruence.
      - exact W.
      - intros x y [E | []] Hx _. inversion E; subst. rewrite Hf in Hx. congruence.
      - intros name []. }
    split; exact G.
Qed.

Lemma reported_CALL_HANDLE c w :
  is_checked c = true -> reported w (snd (CALL_HANDLE_WINAPI c w)).
Proof.
  intros H. apply reported_checked_call.
  - apply (checked_failure_return c 0 H).
  - intros r. apply (checked_failure_return c r H).
Qed.

Lemma reported_CALL_BOOL c w :
  is_checked c = true -> reported w (snd (CALL_BOOL_WINAPI c w)).
Proof.
  intros H. apply reported_checked_call.
  - apply (checked_failure_return c 0 H).
  - intros r. apply (checked_failure_return c r H).
Qed.

(** Selecting succeeds with the original object as its result, and
    selecting the original object again cannot fail. *)
Lemma SelectObject_result hdc obj w :
  fst (os_exec (SelectObject hdc obj) w) = 0 \/
  fst (os_exec (SelectObject hdc obj) w) = DEFAULT_OBJECT.
Proof. cbn. split_ifs; cbn; auto. Qed.

Lemma reported_SELECT_RESTORE hdc obj (scope : M unit) :
  respects reported scope -> respects reported (SELECT_RESTORE_OBJECT hdc obj scope).
Proof.
  intros Hs w. unfold SELECT_RESTORE_OBJECT, bind.
  pose proof (proj1 (reported_checked_call (SelectObject hdc obj) w eq_refl
                       (fun r => eq_refl))) as Hc.
  destruct (CALL_HANDLE_WINAPI (SelectObject hdc obj) w) as [[prev |] w1] eqn:E;
    cbn in *; [| exact Hc].
  assert (Hp : prev = DEFAULT_OBJECT).
  { revert E. unfold CALL_HANDLE_WINAPI, bind, oscall.
    pose proof (SelectObject_result hdc obj w) as S.
    destruct (os_exec (SelectObject hdc obj) w) as [r w0]. cbn in S.
    destruct S as [-> | ->]; cbn; intros E; inversion E. reflexivity. }
  subst prev. unfold scope_exit. specialize (Hs w1).
  destruct (scope w1) as [res w2]. cbn in *.
  eapply reported_trans; [exact Hc |].
  eapply reported_trans; [exact Hs |].
  exact (reported_step (SelectObject hdc DEFAULT_OBJECT) w2 (or_intror eq_refl)).
Qed.

Lemma reported_set_hwnd h w : reported w (set_hwnd h w).
Proof.
  split; [reflexivity |]. intros _. exists [], []. repeat split.
  - intros c r [].
  - intros name [].
Qed.

Lemma reported_getMessage w r m w' : getMessage w = Some (r, m, w') -> reported w w'.
Proof.
  unfold getMessage. intros H.
  assert (G : forall x q, reported w (set_oslog ((GetMessage, x) :: oslog (set_msgq q w))
                                                (set_msgq q w))).
  { intros x q. split; [reflexivity |]. intros _.
    exists [(GetMessage, x)], []. repeat split.
    - intros c y [E | []] _ Hd. inversion E; subst. discriminate Hd.
    - intros name []. }
  assert (G' : forall x, reported w (set_oslog ((GetMessage, x) :: oslog w) w)).
  { intros x. split; [reflexivity |]. intros _.
    exists [(GetMessage, x)], []. repeat split.
    - intros c y [E | []] _ Hd. inversion E; subst. discriminate Hd.
    - intros name []. }
  destruct (fails w GetMessage).
  - inversion H; subst. apply G'.
  - destruct (msgq w) as [| m0 q].
    + destruct (quit w); inversion H; subst. apply G'.
    + inversion H; subst. apply G.
Qed.

Lemma reported_WindowProc msg w : reported w (WindowProc msg w).
Proof.
  apply (R_WindowProc reported reported_refl reported_trans is_direct is_checked
           reported_oscall reported_CALL_HANDLE reported_CALL_BOOL
           reported_SELECT_RESTORE reported_TRACE2); auto.
Qed.

Lemma reported_captureScreen w : reported w (attempt captureScreen w).
Proof.
  apply (respects_captureScreen reported reported_refl reported_trans
           is_direct is_checked
           reported_oscall reported_CALL_HANDLE reported_CALL_BOOL
           reported_SELECT_RESTORE); auto.
Qed.

(** ** The tracing level and the environment *)

(** C1, as the code has it.  When [TRACE] holds the decimal notation
    of an [int], the tracing level is that integer from the assignment
    in [wWinMain] on; when [TRACE] is absent it is the default 1; when
    [TRACE] is set to a value that does not start with a number it is
    0, not the default. *)
Theorem C1_tracing_level_from_TRACE :
  forall fuel nCmdShow w,
    let level := g_tracingLevel (snd (wWinMain fuel (hModule (platform w)) nCmdShow w)) in
    (forall z, INT_MIN <= z <= INT_MAX ->
               getenv (environ (platform w)) "TRACE" = Some (decimal z) ->
               level = z) /\
    (getenv (environ (platform w)) "TRACE" = None -> level = 1) /\
    (forall value, getenv (environ (platform w)) "TRACE" = Some value ->
                   has_number value = false -> level = 0).
Proof.
  intros fuel nCmdShow w level. subst level. repeat split.
  - intros z Hz G. apply stable_wWinMain.
    unfold envIntOr. rewrite G. apply atoi_decimal, Hz.
  - intros G. apply stable_wWinMain. unfold envIntOr. rewrite G. reflexivity.
  - intros value G N. apply stable_wWinMain.
    unfold envIntOr. rewrite G. apply atoi_no_number, N.
Qed.

Lemma C1_witness :
  g_tracingLevel
    (snd (wWinMain 3 4194304 1 (initial_world (quiet_platform [("TRACE", "3")])))) = 3 /\
  g_tracingLevel
    (snd (wWinMain 3 4194304 1 (initial_world (quiet_platform [])))) = 1 /\
  g_tracingLevel
    (snd (wWinMain 3 4194304 1 (initial_world (quiet_platform [("TRACE", "on")])))) = 0.
Proof.
  split; [| split].
  - apply (proj1 (C1_tracing_level_from_TRACE 3 1
                    (initial_world (quiet_platform [("TRACE", "3")]))) 3).
    + unfold INT_MIN, INT_MAX. lia.
    + reflexivity.
  - apply (proj1 (proj2 (C1_tracing_level_from_TRACE 3 1
                           (initial_world (quiet_platform []))))).
    reflexivity.
  - apply (proj2 (proj2 (C1_tracing_level_from_TRACE 3 1
                           (initial_world (quiet_platform [("TRACE", "on")])))) "on").
    + reflexivity.
    + reflexivity.
Defined.

(** C1 as stated fails: [TRACE=abc] is not numeric, and the tracing
    level becomes 0, not the default 1. *)
Lemma C1_counterexample :
  has_number "abc" = false /\
  g_tracingLevel
    (snd (wWinMain 1 4194304 1 (initial_world (quiet_platform [("TRACE", "abc")]))))
  <> 1.
Proof. split; [reflexivity | vm_compute; discriminate]. Qed.

(** C10.  When [TRACE] is set to a value that [atoi] reads as zero or
    less (any value without a leading number reads as zero), the
    tracing level is that value, and the whole run, every handler and
    every checked call write nothing to the diagnostic stream, whether
    or not the call fails. *)
Theorem C10_level_below_one_is_silent :
  (forall value, has_number value = false -> atoi value = Some 0) /\
  (forall fuel nCmdShow w value z,
      getenv (environ (platform w)) "TRACE" = Some value ->
      atoi value = Some z -> z <= 0 ->
      let w' := snd (wWinMain fuel (hModule (platform w)) nCmdShow w) in
      g_tracingLevel w' = z /\ wcerr w' = wcerr w) /\
  (forall msg w, g_tracingLevel w <= 0 -> wcerr (WindowProc msg w) = wcerr w) /\
  (forall c w, g_tracingLevel w <= 0 ->
      wcerr (snd (CALL_BOOL_WINAPI c w)) = wcerr w /\
      wcerr (snd (CALL_HANDLE_WINAPI c w)) = wcerr w) /\
  (forall level msg w, 1 <= level -> g_tracingLevel w <= 0 ->
      wcerr (snd (TRACE level msg w)) = wcerr w).
Proof.
  split; [exact atoi_no_number |].
  split.
  { intros fuel nCmdShow w value z G A Hz.
    pose proof (stable_wWinMain fuel nCmdShow w z) as S.
    unfold envIntOr in S. rewrite G in S. specialize (S A).
    cbv zeta in *. destruct S as [L W]. auto. }
  split.
  { intros msg w H. apply (stable_WindowProc msg w), H. }
  split.
  { intros c w H. split.
    - apply (stable_CALL_BOOL c w eq_refl), H.
    - apply (stable_CALL_HANDLE c w eq_refl), H. }
  intros level msg w Hl H. apply (stable_TRACE level msg w Hl), H.
Qed.

Lemma C10_witness :
  let w := initial_world (quiet_platform [("TRACE", "-2")]) in
  let w' := snd (wWinMain 3 4194304 1 w) in
  g_tracingLevel w' = -2 /\ wcerr w' = wcerr w.
Proof.
  intros w w'.
  apply (proj1 (proj2 C10_level_below_one_is_silent) 3%nat 1 w "-2" (-2)).
  - reflexivity.
  - reflexivity.
  - lia.
Defined.

(** ** Failure reports *)

(** C3, as the code has it.  With tracing level one or more, every
    failure return of a call made through the checked wrappers is
    reported, and nothing else is: a call whose result the code
    discards ([SetStretchBltMode], [GetSystemMetrics], [FillRect],
    [PostMessage], [GetMessage], ...) is never reported.  This holds for
    the capture operation, for every message the window procedure
    handles, and for the whole run. *)
Theorem C3_checked_failures_are_reported :
  (forall w, 1 <= g_tracingLevel w ->
     exists calls lines, added w (attempt captureScreen w) calls lines /\
       checked_failures_reported calls lines /\
       reports_are_of_checked_calls calls lines) /\
  (forall msg w, 1 <= g_tracingLevel w ->
     exists calls lines, added w (WindowProc msg w) calls lines /\
       checked_failures_reported calls lines /\
       reports_are_of_checked_calls calls lines) /\
  (forall fuel nCmdShow w level,
     envIntOr (environ (platform w)) "TRACE" 1 = Some level -> 1 <= level ->
     exists calls lines,
       added w (snd (wWinMain fuel (hModule (platform w)) nCmdShow w)) calls lines /\
       checked_failures_reported calls lines /\
       reports_are_of_checked_calls calls lines).
Proof.
  split; [| split].
  - intros w H. apply (reported_captureScreen w), H.
  - intros msg w H. apply (reported_WindowProc msg w), H.
  - intros fuel nCmdShow w level E Hl.
    unfold wWinMain. rewrite Z.eqb_refl, E. cbn [negb].
    set (w1 := set_tracingLevel level (attempt (oscall (GetModuleHandle NULL)) w)).
    pose proof (R_after_configuration reported reported_refl reported_trans
                  is_direct is_checked
                  reported_oscall reported_CALL_HANDLE reported_CALL_BOOL
                  reported_SELECT_RESTORE reported_TRACE2
                  (fun _ H => H) (fun _ H => H)
                  reported_set_hwnd reported_getMessage fuel nCmdShow w1) as S.
    cbv zeta in S. destruct S as (_ & S).
    destruct S as (calls & lines & (O & W) & A & B); [exact Hl |].
    exists (calls ++ [(GetModuleHandle NULL, hModule (platform w))]), lines.
    repeat split.
    + rewrite O. rewrite <- app_assoc. reflexivity.
    + rewrite W. reflexivity.
    + intros c r Hin Hf Hd. apply in_app_or in Hin.
      destruct Hin as [Hin | [Eq | []]]; [eauto |].
      inversion Eq; subst. discriminate Hd.
    + intros name Hin. destruct (B name Hin) as (c & I & N & D).
      exists c. repeat split; auto. apply in_or_app. auto.
Qed.

Lemma C3_witness :
  let w := ready_world (platform_with [] bitmap_fails) in
  exists calls lines, added w (attempt captureScreen w) calls lines /\
    checked_failures_reported calls lines /\
    reports_are_of_checked_calls calls lines.
Proof.
  intros w. apply (proj1 C3_checked_failures_are_reported w). cbn. lia.
Defined.

(** C3 as stated fails.  With tracing level 1, a capture in which
    [SetStretchBltMode] returns zero, the documented failure value,
    writes no report at all: not every failure return of the capture
    operation is reported. *)
Lemma C3_counterexample :
  ~ (forall w, 1 <= g_tracingLevel w ->
       forall calls lines, added w (attempt captureScreen w) calls lines ->
         every_failure_reported calls lines).
Proof.
  intros H.
  set (w := ready_world (platform_with [] stretch_mode_fails)).
  assert (L : 1 <= g_tracingLevel w) by (cbn; lia).
  specialize (H w L (oslog (attempt captureScreen w)) []).
  assert (A : added w (attempt captureScreen w) (oslog (attempt captureScreen w)) []).
  { split; vm_compute; reflexivity. }
  specialize (H A (SetStretchBltMode 8 HALFTONE) 0).
  apply H.
  - vm_compute. tauto.
  - reflexivity.
Qed.

(** ** The size of the bitmap *)

Lemma sub32_exact a b : INT_MIN <= a - b <= INT_MAX -> sub32 a b = a - b.
Proof.
  unfold sub32, wrap32, INT_MIN, INT_MAX. intros H.
  rewrite Z.mod_small by lia. lia.
Qed.

(** Walk a concrete history looking for the split at a given call. *)
Ltac find_split H :=
  repeat match type of H with
         | _ = ?post ++ _ :: _ =>
             destruct post as [| ? post]; cbn in H;
             [ try discriminate H
             | first [ discriminate H | injection H as ? H; subst ] ]
         end.

Lemma captureScreen_bitmap (w : World) :
  let rc := clientRect (platform w) in
  exists calls, oslog (attempt captureScreen w) = calls ++ oslog w /\
    forall post hdc cx cy r pre,
      calls = post ++ (CreateCompatibleBitmap hdc cx cy, r) :: pre ->
      (exists pre', pre = (GetClientRect (m_hwnd w), 1) :: pre') /\
      cx = sub32 (right rc) (left rc) /\ cy = sub32 (bottom rc) (top rc).
Proof.
  run_capture.
  all: give_new_calls; split; [reflexivity |].
  all: intros post hdc cx cy r pre H; find_split H.
  all: injection H as ? ? ? ? ?; subst; repeat split; eexists; reflexivity.
Qed.

(** C4.  In every capture, whichever calls fail, a call of
    [CreateCompatibleBitmap] is preceded immediately by the successful
    [GetClientRect] and asks for exactly the width and the height of
    the rectangle that call reported; and when no call fails, the
    allocation and both copies are made whatever the rectangle is, one
    of zero area included, in whichever order the arguments of
    [StretchBlt] are evaluated. *)
Theorem C4_bitmap_has_client_size :
  (forall w,
     let rc := clientRect (platform w) in
     INT_MIN <= right rc - left rc <= INT_MAX ->
     INT_MIN <= bottom rc - top rc <= INT_MAX ->
     exists calls, oslog (attempt captureScreen w) = calls ++ oslog w /\
       forall post hdc cx cy r pre,
         calls = post ++ (CreateCompatibleBitmap hdc cx cy, r) :: pre ->
         (exists pre', pre = (GetClientRect (m_hwnd w), 1) :: pre') /\
         cx = right rc - left rc /\ cy = bottom rc - top rc) /\
  (forall w, (forall n c, faults (platform w) n c = false) ->
     oslog (attempt captureScreen w) = rev (capture_calls w) ++ oslog w).
Proof.
  split; [| exact captureScreen_success].
  intros w rc Hw Hh.
  destruct (captureScreen_bitmap w) as (calls & O & B).
  exists calls. split; [exact O |].
  intros post hdc cx cy r pre E.
  destruct (B post hdc cx cy r pre E) as (P & X & Y).
  fold rc in X, Y. rewrite sub32_exact in X, Y by assumption. auto.
Qed.

Lemma C4_witness :
  let w := ready_world zero_area_platform in
  (exists calls, oslog (attempt captureScreen w) = calls ++ oslog w /\
     forall post hdc cx cy r pre,
       calls = post ++ (CreateCompatibleBitmap hdc cx cy, r) :: pre ->
       (exists pre', pre = (GetClientRect (m_hwnd w), 1) :: pre') /\
       cx = 0 - 0 /\ cy = 0 - 0) /\
  oslog (attempt captureScreen w) = rev (capture_calls w) ++ oslog w.
Proof.
  intros w. split.
  - apply (proj1 C4_bitmap_has_client_size w); cbn; unfold INT_MIN, INT_MAX; lia.
  - apply (proj2 C4_bitmap_has_client_size w). intros n c. reflexivity.
Defined.

(** ** Hot keys *)

(** C5.  [onHotKey] traces the event and then looks at the identifier
    only: identifier 1 runs the capture, any other identifier (2 among
    them) does nothing more, so the handler's effect is the trace line
    alone; the identifiers the creation handler registers are 1 for F5
    and 2 for the up arrow. *)
Theorem C5_hotkey_dispatch :
  (forall id fsModifiers vk w,
     onHotKey id fsModifiers vk w =
     (if id =? HOTKEY_ID_F5 then captureScreen else ret tt)
       (snd (TRACE2 (hotkey_line id fsModifiers vk) w))) /\
  (forall base wParam lParam w, wParam <> HOTKEY_ID_F5 ->
     handleMessage base WM_HOTKEY wParam lParam w =
     (Ok 0, snd (TRACE2 (hotkey_line wParam (LOWORD lParam) (HIWORD lParam)) w))) /\
  (forall base lParam w,
     attempt (handleMessage base WM_HOTKEY HOTKEY_ID_F5 lParam) w =
     attempt captureScreen
       (snd (TRACE2 (hotkey_line HOTKEY_ID_F5 (LOWORD lParam) (HIWORD lParam)) w))) /\
  (forall base w k,
     In k (hotkeys (attempt (handleMessage base WM_CREATE 0 0) w)) ->
     In k (hotkeys w) \/
     k = mkHotKey (m_hwnd w) HOTKEY_ID_F5 0 VK_F5 \/
     k = mkHotKey (m_hwnd w) HOTKEY_ID_UP 0 VK_UP).
Proof.
  split; [| split; [| split]].
  - intros id fsModifiers vk w. reflexivity.
  - intros base wParam lParam w H.
    unfold handleMessage, onHotKey, bind. cbn.
    apply Z.eqb_neq in H. rewrite H. reflexivity.
  - intros base lParam w.
    unfold attempt, handleMessage, onHotKey, bind. cbn -[captureScreen hotkey_line].
    match goal with
    | |- context [captureScreen ?W] => destruct (captureScreen W) as [[[] |] w1]
    end; reflexivity.
  - intros base w k.
    unfold attempt, handleMessage, CALL_BOOL_WINAPI, bind, ret, abort, oscall,
      this_hwnd, TRACE1, TRACE.
    simp_world.
    repeat match goal with
           | |- context [if ?b || ?c then _ else _] =>
               destruct (b || c) eqn:?; simp_world
           end.
    all: cbn; intuition.
Qed.

Lemma C5_witness :
  handleMessage DefWindowProc_plain WM_HOTKEY HOTKEY_ID_UP 2490368
    (ready_world (platform_with [] no_faults)) =
  (Ok 0, snd (TRACE2 (hotkey_line HOTKEY_ID_UP (LOWORD 2490368) (HIWORD 2490368))
                (ready_world (platform_with [] no_faults)))).
Proof.
  apply (proj1 (proj2 C5_hotkey_dispatch)). unfold HOTKEY_ID_UP, HOTKEY_ID_F5. lia.
Defined.

(** ** Events without a handler *)

(** C8.  A key-down event for a key other than Q is traced and then
    handed, unchanged, to the base handler; a message of a type
    without a case is handed to the base handler at once.  In both
    cases the world the base handler starts from has the tracing
    level, the hot-key table, the call history (hence what was drawn),
    the held resources, the queue and the window of the world before. *)
Theorem C8_unhandled_events_fall_through :
  (forall base wParam lParam w, wParam <> KEY_Q ->
     let w1 := snd (TRACE2 (keydown_line wParam lParam) w) in
     handleMessage base WM_KEYDOWN wParam lParam w = base WM_KEYDOWN wParam lParam w1 /\
     g_tracingLevel w1 = g_tracingLevel w /\ hotkeys w1 = hotkeys w /\
     oslog w1 = oslog w /\ drawn w1 = drawn w /\ live w1 = live w /\
     msgq w1 = msgq w /\ quit w1 = quit w /\ wnd_exists w1 = wnd_exists w) /\
  (forall base uMsg wParam lParam w,
     uMsg <> WM_CREATE -> uMsg <> WM_DESTROY -> uMsg <> WM_PAINT ->
     uMsg <> WM_HOTKEY -> uMsg <> WM_KEYDOWN ->
     handleMessage base uMsg wParam lParam w = base uMsg wParam lParam w).
Proof.
  split.
  - intros base wParam lParam w H w1. subst w1.
    split; [| repeat split].
    unfold handleMessage, onKeyDown, bind. cbn -[KEY_Q keydown_line].
    apply Z.eqb_neq in H. rewrite H. reflexivity.
  - intros base uMsg wParam lParam w H1 H2 H3 H4 H5.
    unfold handleMessage.
    apply Z.eqb_neq in H1, H2, H3, H4, H5.
    rewrite H1, H2, H3, H4, H5. reflexivity.
Qed.

Lemma C8_witness :
  let w := ready_world (platform_with [] no_faults) in
  handleMessage DefWindowProc_plain WM_KEYDOWN 65 0 w =
    DefWindowProc_plain WM_KEYDOWN 65 0 (snd (TRACE2 (keydown_line 65 0) w)) /\
  handleMessage DefWindowProc_plain 512 0 0 w = DefWindowProc_plain 512 0 0 w.
Proof.
  intros w. split.
  - apply (proj1 C8_unhandled_events_fall_through DefWindowProc_plain 65 0 w).
    unfold KEY_Q. cbn. lia.
  - apply (proj2 C8_unhandled_events_fall_through DefWindowProc_plain 512 0 0 w);
      unfold WM_CREATE, WM_DESTROY, WM_PAINT, WM_HOTKEY, WM_KEYDOWN; lia.
Defined.

(** ** Registration and unregistration of the hot keys *)

Lemma is_hotkey_self hwnd id mods vk : is_hotkey hwnd id (mkHotKey hwnd id mods vk) = true.
Proof. unfold is_hotkey. cbn. rewrite !Z.eqb_refl. reflexivity. Qed.

Lemma existsb_is_hotkey hwnd id mods vk table :
  In (mkHotKey hwnd id mods vk) table -> existsb (is_hotkey hwnd id) table = true.
Proof.
  intros H. apply existsb_exists. eexists. split; [exact H | apply is_hotkey_self].
Qed.

Lemma filter_no_program_hotkey hwnd table :
  no_program_hotkey hwnd
    (filter (fun k => negb (is_hotkey hwnd HOTKEY_ID_UP k))
       (filter (fun k => negb (is_hotkey hwnd HOTKEY_ID_F5 k)) table)).
Proof.
  intros k H. apply filter_In in H. destruct H as [H H2].
  apply filter_In in H. destruct H as [_ H1].
  apply negb_true_iff in H1, H2. auto.
Qed.

Lemma filter_id_no_program_hotkey hwnd table :
  no_program_hotkey hwnd table ->
  filter (fun k => negb (is_hotkey hwnd HOTKEY_ID_UP k))
    (filter (fun k => negb (is_hotkey hwnd HOTKEY_ID_F5 k)) table) = table.
Proof.
  induction table as [| k t IH]; intros H; [reflexivity |].
  destruct (H k (or_introl eq_refl)) as [H1 H2].
  cbn. rewrite H1. cbn. rewrite H2. cbn. f_equal.
  apply IH. intros x Hx. apply H. right. exact Hx.
Qed.

Lemma filter_registered hwnd table :
  filter (fun k => negb (is_hotkey hwnd HOTKEY_ID_UP k))
    (filter (fun k => negb (is_hotkey hwnd HOTKEY_ID_F5 k))
       ([mkHotKey hwnd HOTKEY_ID_UP 0 VK_UP; mkHotKey hwnd HOTKEY_ID_F5 0 VK_F5]
        ++ table)) =
  filter (fun k => negb (is_hotkey hwnd HOTKEY_ID_UP k))
    (filter (fun k => negb (is_hotkey hwnd HOTKEY_ID_F5 k)) table).
Proof.
  cbn [app filter]. rewrite (is_hotkey_self hwnd HOTKEY_ID_F5).
  replace (is_hotkey hwnd HOTKEY_ID_F5 (mkHotKey hwnd HOTKEY_ID_UP 0 VK_UP))
    with false by (unfold is_hotkey; cbn; rewrite Z.eqb_refl; reflexivity).
  cbn [negb filter]. rewrite (is_hotkey_self hwnd HOTKEY_ID_UP). reflexivity.
Qed.

Lemma destroy_registered base w :
  In (mkHotKey (m_hwnd w) HOTKEY_ID_F5 0 VK_F5) (hotkeys w) ->
  In (mkHotKey (m_hwnd w) HOTKEY_ID_UP 0 VK_UP) (hotkeys w) ->
  let w' := attempt (handleMessage base WM_DESTROY 0 0) w in
  oslog w' = [(PostQuitMessage 0, 0);
              (UnregisterHotKey (m_hwnd w) HOTKEY_ID_UP, 1);
              (UnregisterHotKey (m_hwnd w) HOTKEY_ID_F5, 1)] ++ oslog w /\
  quit w' = Some 0 /\
  hotkeys w' = filter (fun k => negb (is_hotkey (m_hwnd w) HOTKEY_ID_UP k))
                 (filter (fun k => negb (is_hotkey (m_hwnd w) HOTKEY_ID_F5 k))
                    (hotkeys w)) /\
  msgq w' = msgq w /\ wnd_exists w' = wnd_exists w /\
  platform w' = platform w /\ m_hwnd w' = m_hwnd w.
Proof.
  intros H1 H2.
  assert (E1 : existsb (is_hotkey (m_hwnd w) HOTKEY_ID_F5) (hotkeys w) = true)
    by (eapply existsb_is_hotkey; exact H1).
  assert (E2 : existsb (is_hotkey (m_hwnd w) HOTKEY_ID_UP)
                 (filter (fun k => negb (is_hotkey (m_hwnd w) HOTKEY_ID_F5 k))
                    (hotkeys w)) = true).
  { apply existsb_exists. eexists. split; [| apply is_hotkey_self].
    apply filter_In. split; [exact H2 |].
    unfold is_hotkey. cbn. rewrite Z.eqb_refl. reflexivity. }
  unfold attempt, handleMessage, CALL_BOOL_WINAPI, bind, ret, abort, oscall,
    this_hwnd, TRACE2, TRACE1, TRACE.
  cbn -[is_hotkey HOTKEY_ID_F5 HOTKEY_ID_UP].
  rewrite E1. cbn -[is_hotkey HOTKEY_ID_F5 HOTKEY_ID_UP].
  rewrite E2. cbn -[is_hotkey HOTKEY_ID_F5 HOTKEY_ID_UP].
  repeat split.
Qed.

Lemma create_registers base w :
  key_taken w 0 VK_F5 = false -> key_taken w 0 VK_UP = false ->
  (forall n h id m v, faults (platform w) n (RegisterHotKey h id m v) = false) ->
  let w1 := attempt (handleMessage base WM_CREATE 0 0) w in
  (exists others,
     oslog w1 = (RegisterHotKey (m_hwnd w) HOTKEY_ID_UP 0 VK_UP, 1)
                :: (RegisterHotKey (m_hwnd w) HOTKEY_ID_F5 0 VK_F5, 1)
                :: others ++ oslog w) /\
  hotkeys w1 = [mkHotKey (m_hwnd w) HOTKEY_ID_UP 0 VK_UP;
                mkHotKey (m_hwnd w) HOTKEY_ID_F5 0 VK_F5] ++ hotkeys w /\
  m_hwnd w1 = m_hwnd w /\ platform w1 = platform w /\
  msgq w1 = msgq w /\ quit w1 = quit w /\ wnd_exists w1 = wnd_exists w.
Proof.
  intros K1 K2 F.
  unfold attempt, handleMessage, CALL_BOOL_WINAPI, bind, ret, abort, oscall,
    this_hwnd, TRACE1, TRACE.
  unfold key_taken in *.
  repeat (progress (unfold fails, key_taken; cbn; rewrite ?F, ?K1, ?K2)).
  repeat split.
  eexists [_; _; _; _]. reflexivity.
Qed.

(** C7.  When the two hot keys the creation handler registers are in
    the table, the destruction handler makes exactly three calls: it
    unregisters identifier 1 and identifier 2 of the same window, both
    successfully, and then calls [PostQuitMessage(0)]; afterwards the
    table holds no hot key of the window with either identifier.  A
    creation in which both registrations succeed registers exactly
    those two, and creation followed by destruction leaves the table
    as it was. *)
Theorem C7_destroy_unregisters_both_hotkeys :
  (forall base w,
     In (mkHotKey (m_hwnd w) HOTKEY_ID_F5 0 VK_F5) (hotkeys w) ->
     In (mkHotKey (m_hwnd w) HOTKEY_ID_UP 0 VK_UP) (hotkeys w) ->
     let w' := attempt (handleMessage base WM_DESTROY 0 0) w in
     oslog w' = [(PostQuitMessage 0, 0);
                 (UnregisterHotKey (m_hwnd w) HOTKEY_ID_UP, 1);
                 (UnregisterHotKey (m_hwnd w) HOTKEY_ID_F5, 1)] ++ oslog w /\
     quit w' = Some 0 /\
     no_program_hotkey (m_hwnd w) (hotkeys w')) /\
  (forall base w,
     key_taken w 0 VK_F5 = false -> key_taken w 0 VK_UP = false ->
     (forall n h id m v, faults (platform w) n (RegisterHotKey h id m v) = false) ->
     no_program_hotkey (m_hwnd w) (hotkeys w) ->
     let w1 := attempt (handleMessage base WM_CREATE 0 0) w in
     let w2 := attempt (handleMessage base WM_DESTROY 0 0) w1 in
     hotkeys w1 = [mkHotKey (m_hwnd w) HOTKEY_ID_UP 0 VK_UP;
                   mkHotKey (m_hwnd w) HOTKEY_ID_F5 0 VK_F5] ++ hotkeys w /\
     (exists others,
        oslog w2 = [(PostQuitMessage 0, 0);
                    (UnregisterHotKey (m_hwnd w) HOTKEY_ID_UP, 1);
                    (UnregisterHotKey (m_hwnd w) HOTKEY_ID_F5, 1);
                    (RegisterHotKey (m_hwnd w) HOTKEY_ID_UP 0 VK_UP, 1);
                    (RegisterHotKey (m_hwnd w) HOTKEY_ID_F5 0 VK_F5, 1)]
                   ++ others ++ oslog w) /\
     hotkeys w2 = hotkeys w /\ quit w2 = Some 0).
Proof.
  split.
  - intros base w H1 H2. cbv zeta.
    destruct (destroy_registered base w H1 H2) as (O & Q & K & _).
    split; [exact O | split; [exact Q |]].
    rewrite K. apply filter_no_program_hotkey.
  - intros base w K1 K2 F N. cbv zeta.
    destruct (create_registers base w K1 K2 F) as ((others & O1) & T1 & Hh & _).
    set (w1 := attempt (handleMessage base WM_CREATE 0 0) w) in *.
    assert (I1 : In (mkHotKey (m_hwnd w1) HOTKEY_ID_F5 0 VK_F5) (hotkeys w1))
      by (rewrite T1, Hh; cbn; auto).
    assert (I2 : In (mkHotKey (m_hwnd w1) HOTKEY_ID_UP 0 VK_UP) (hotkeys w1))
      by (rewrite T1, Hh; cbn; auto).
    destruct (destroy_registered base w1 I1 I2) as (O2 & Q & K & _).
    set (w2 := attempt (handleMessage base WM_DESTROY 0 0) w1) in *.
    rewrite Hh in *.
    split; [exact T1 |]. split; [| split; [| exact Q]].
    + exists others. rewrite O2, O1. reflexivity.
    + rewrite K, T1, filter_registered.
      apply filter_id_no_program_hotkey, N.
Qed.

Lemma C7_witness :
  let w := ready_world (platform_with [] no_faults) in
  let w' := attempt (handleMessage DefWindowProc_plain WM_DESTROY 0 0) w in
  oslog w' = [(PostQuitMessage 0, 0);
              (UnregisterHotKey (m_hwnd w) HOTKEY_ID_UP, 1);
              (UnregisterHotKey (m_hwnd w) HOTKEY_ID_F5, 1)] ++ oslog w /\
  quit w' = Some 0 /\
  no_program_hotkey (m_hwnd w) (hotkeys w').
Proof.
  intros w.
  apply (proj1 C7_destroy_unregisters_both_hotkeys DefWindowProc_plain w);
    cbn; auto.
Defined.

(** ** What one dispatched message does to the window, the hot keys
    and the queue *)

Lemma same_core_DefWindowProc_plain u wp lp w :
  same_core w (snd (DefWindowProc_plain u wp lp w)).
Proof. unfold same_core. cbn. auto 10. Qed.

Lemma same_core_TRACE2 msg w : same_core w (snd (TRACE2 msg w)).
Proof. unfold same_core. cbn. auto 10. Qed.

(** Paint, hot-key and key events other than Q, and events without a
    case other than [WM_CLOSE]. *)
Lemma WindowProc_other msg w :
  message msg <> WM_CREATE -> message msg <> WM_DESTROY ->
  message msg <> WM_CLOSE ->
  (message msg = WM_KEYDOWN -> wParam msg <> KEY_Q) ->
  same_core w (WindowProc msg w).
Proof.
  intros H1 H2 H3 H4. unfold WindowProc, attempt, handleMessage.
  apply Z.eqb_neq in H1, H2. rewrite H1, H2.
  destruct (message msg =? WM_PAINT).
  { unfold bind. pose proof (same_core_onPaint w) as S.
    destruct (onPaint w) as [[[] |] w1]; exact S. }
  destruct (message msg =? WM_HOTKEY).
  { unfold bind, onHotKey. cbn -[captureScreen hotkey_line].
    match goal with
    | |- context [set_wcerr ?l w] =>
        assert (S1 : same_core w (set_wcerr l w)) by (unfold same_core; cbn; auto 10);
        set (w1 := set_wcerr l w) in *
    end.
    destruct (wParam msg =? HOTKEY_ID_F5); [| exact S1].
    pose proof (same_core_captureScreen w1) as S.
    destruct (captureScreen w1) as [[[] |] w2]; cbn [snd] in *;
      exact (same_core_trans _ _ _ S1 S). }
  assert (B : same_core w
                (snd (BaseWindow_handleMessage (message msg) (wParam msg) (lParam msg) w))).
  { unfold BaseWindow_handleMessage. apply Z.eqb_neq in H3. rewrite H3.
    apply same_core_DefWindowProc_plain. }
  destruct (message msg =? WM_KEYDOWN) eqn:K; [| exact B].
  apply Z.eqb_eq in K. specialize (H4 K). apply Z.eqb_neq in H4.
  unfold bind, onKeyDown. cbn -[KEY_Q keydown_line]. rewrite H4. cbn -[KEY_Q keydown_line].
  unfold BaseWindow_handleMessage. apply Z.eqb_neq in H3. rewrite H3.
  unfold same_core. cbn. auto 10.
Qed.

(** The Q key: the close message is posted, unless the post fails. *)
Lemma WindowProc_quit_key lp w :
  let w' := WindowProc (mkMSG WM_KEYDOWN KEY_Q lp) w in
  platform w' = platform w /\ m_hwnd w' = m_hwnd w /\ hotkeys w' = hotkeys w /\
  quit w' = quit w /\ wnd_exists w' = wnd_exists w /\
  (exists r, oslog w' = (PostMessage (m_hwnd w) WM_CLOSE 0 0, r) :: oslog w) /\
  msgq w' = (if faults (platform w) (List.length (oslog w))
                  (PostMessage (m_hwnd w) WM_CLOSE 0 0)
             then msgq w else msgq w ++ [mkMSG WM_CLOSE 0 0]).
Proof.
  unfold WindowProc, attempt, handleMessage, onKeyDown, bind, oscall, this_hwnd,
    TRACE2, TRACE, ret.
  cbn. unfold fails. cbn.
  destruct (faults (platform w) (List.length (oslog w))
              (PostMessage (m_hwnd w) WM_CLOSE 0 0)); cbn;
    repeat split; eexists; reflexivity.
Qed.

(** [WM_CREATE] and [WM_DESTROY] do not touch the queue or the window. *)
Lemma WindowProc_create wp lp w :
  let w' := WindowProc (mkMSG WM_CREATE wp lp) w in
  platform w' = platform w /\ m_hwnd w' = m_hwnd w /\ msgq w' = msgq w /\
  quit w' = quit w /\ wnd_exists w' = wnd_exists w /\
  (key_taken w 0 VK_F5 = true -> hotkeys w' = hotkeys w).
Proof.
  unfold WindowProc, attempt, handleMessage, CALL_BOOL_WINAPI, bind, ret, abort,
    oscall, this_hwnd, TRACE1, TRACE.
  simp_world.
  repeat match goal with
         | |- context [if ?b || ?c then _ else _] =>
             destruct (b || c) eqn:?; simp_world
         end.
  all: repeat split; intros K; unfold key_taken in *; cbn in *;
    try rewrite K in *; rewrite ?orb_true_r in *; try discriminate.
Qed.

Lemma WindowProc_destroy wp lp w :
  let w' := WindowProc (mkMSG WM_DESTROY wp lp) w in
  platform w' = platform w /\ m_hwnd w' = m_hwnd w /\ msgq w' = msgq w /\
  wnd_exists w' = wnd_exists w.
Proof.
  unfold WindowProc, attempt, handleMessage, CALL_BOOL_WINAPI, bind, ret, abort,
    oscall, this_hwnd, TRACE2, TRACE1, TRACE.
  simp_world.
  repeat match goal with
         | |- context [if existsb ?f ?l then _ else _] =>
             destruct (existsb f l) eqn:?; simp_world
         end.
  all: repeat split.
Qed.

(** [WM_CLOSE]: the window is destroyed; when both hot keys are
    registered they are unregistered and the quit request is posted. *)
Lemma WindowProc_close wp lp w :
  let w' := WindowProc (mkMSG WM_CLOSE wp lp) w in
  platform w' = platform w /\ m_hwnd w' = m_hwnd w /\ msgq w' = msgq w /\
  wnd_exists w' = false /\
  (In (mkHotKey (m_hwnd w) HOTKEY_ID_F5 0 VK_F5) (hotkeys w) ->
   In (mkHotKey (m_hwnd w) HOTKEY_ID_UP 0 VK_UP) (hotkeys w) ->
   quit w' = Some 0 /\ no_program_hotkey (m_hwnd w) (hotkeys w')).
Proof.
  cbv zeta.
  assert (E : WindowProc (mkMSG WM_CLOSE wp lp) w =
              snd (oscall (DestroyWindow (m_hwnd w))
                     (attempt (handleMessage DefWindowProc_plain WM_DESTROY 0 0) w))).
  { unfold WindowProc, attempt. cbn -[handleMessage].
    unfold handleMessage at 1. cbn -[handleMessage].
    unfold BaseWindow_handleMessage, bind, this_hwnd. cbn -[handleMessage].
    reflexivity. }
  rewrite E. clear E.
  pose proof (WindowProc_destroy 0 0 w) as D. cbv zeta in D.
  assert (E2 : WindowProc (mkMSG WM_DESTROY 0 0) w =
               attempt (handleMessage BaseWindow_handleMessage WM_DESTROY 0 0) w)
    by reflexivity.
  assert (E3 : attempt (handleMessage BaseWindow_handleMessage WM_DESTROY 0 0) w =
               attempt (handleMessage DefWindowProc_plain WM_DESTROY 0 0) w)
    by reflexivity.
  rewrite E2, E3 in D. clear E2 E3.
  set (w1 := attempt (handleMessage DefWindowProc_plain WM_DESTROY 0 0) w) in *.
  destruct D as (P & Hh & Q & W).
  split; [cbn; exact P |]. split; [cbn; exact Hh |]. split; [cbn; exact Q |].
  split; [reflexivity |].
  intros I1 I2.
  destruct (destroy_registered DefWindowProc_plain w I1 I2) as (_ & Qt & K & _).
  fold w1 in Qt, K.
  split; [cbn; exact Qt |].
  cbn. rewrite K. apply filter_no_program_hotkey.
Qed.

(** ** The message loop ends *)

Lemma queue_weight_app q1 q2 :
  queue_weight (q1 ++ q2) = (queue_weight q1 + queue_weight q2)%nat.
Proof.
  induction q1 as [| m q IH]; cbn; [reflexivity |]. rewrite IH. lia.
Qed.

Lemma WindowProc_msgq msg w :
  msgq (WindowProc msg w) = msgq w \/
  (is_quit_key msg = true /\
   msgq (WindowProc msg w) = msgq w ++ [mkMSG WM_CLOSE 0 0]).
Proof.
  destruct msg as [u wp lp].
  destruct (Z.eq_dec u WM_CREATE) as [-> | N1].
  { left. apply WindowProc_create. }
  destruct (Z.eq_dec u WM_DESTROY) as [-> | N2].
  { left. apply WindowProc_destroy. }
  destruct (Z.eq_dec u WM_CLOSE) as [-> | N3].
  { left. apply WindowProc_close. }
  destruct (is_quit_key (mkMSG u wp lp)) eqn:Q.
  - unfold is_quit_key in Q. cbn in Q. apply andb_true_iff in Q.
    destruct Q as [Q1 Q2]. apply Z.eqb_eq in Q1, Q2. subst u wp.
    destruct (WindowProc_quit_key lp w) as (_ & _ & _ & _ & _ & _ & E).
    change KEY_Q with 81 in E. rewrite E. destruct (faults _ _ _); auto.
  - left. apply WindowProc_other; cbn; auto.
    intros K. unfold is_quit_key in Q. cbn in Q.
    subst u. rewrite Z.eqb_refl in Q. cbn in Q. apply Z.eqb_neq in Q. exact Q.
Qed.

(** [TranslateMessage] appends the character message of a key press
    to the queue and changes nothing else. *)
Lemma translate_msgq msg w :
  let w1 := attempt (oscall (TranslateMessage msg)) w in
  msgq w1 = msgq w ++ char_message (platform w) msg /\
  platform w1 = platform w /\ m_hwnd w1 = m_hwnd w /\ hotkeys w1 = hotkeys w /\
  quit w1 = quit w /\ wnd_exists w1 = wnd_exists w.
Proof.
  unfold attempt, oscall. cbn.
  destruct (char_message (platform w) msg); cbn.
  - rewrite app_nil_r. auto 10.
  - auto 10.
Qed.

Lemma char_message_weight p m :
  (queue_weight (char_message p m) <= if is_key_press m then 1 else 0)%nat.
Proof.
  unfold char_message. destruct (is_key_press m); [| cbn; lia].
  destruct (keyboard p m); [cbn; lia | |];
    destruct (message m =? WM_SYSKEYDOWN); cbn; lia.
Qed.

Lemma char_message_ordinary p m : Forall ordinary (char_message p m).
Proof.
  unfold char_message. destruct (is_key_press m); [| constructor].
  destruct (keyboard p m); [constructor | |];
    destruct (message m =? WM_SYSKEYDOWN);
    (constructor; [split; cbn; discriminate | constructor]).
Qed.

Lemma dispatch_weight msg w :
  (queue_weight (msgq (dispatchMessage msg (attempt (oscall (TranslateMessage msg)) w)))
   <= queue_weight (msgq w) + (if is_key_press msg then 1 else 0)
      + (if is_quit_key msg then 1 else 0))%nat.
Proof.
  unfold dispatchMessage.
  destruct (translate_msgq msg w) as (T & _).
  set (w0 := attempt (oscall (TranslateMessage msg)) w) in *.
  set (w1 := attempt (oscall (DispatchMessage msg)) w0).
  assert (E : msgq w1 = msgq w ++ char_message (platform w) msg) by exact T.
  pose proof (char_message_weight (platform w) msg) as C.
  destruct (wnd_exists w1); [| rewrite E, queue_weight_app; lia].
  destruct (WindowProc_msgq msg w1) as [H | [Q H]];
    rewrite H, E, ?queue_weight_app.
  - lia.
  - rewrite Q. cbn. lia.
Qed.

Lemma message_loop_enough_fuel (n : nat) :
  forall w, (queue_weight (msgq w) < n)%nat ->
            forall w', message_loop n w <> LoopFuel w'.
Proof.
  induction n as [| n IH]; intros w Hn w'; [lia |].
  cbn [message_loop]. unfold getMessage.
  destruct (fails w GetMessage); [cbn; discriminate |].
  destruct (msgq w) as [| m q] eqn:Q.
  - destruct (quit w); cbn; discriminate.
  - destruct (message m =? WM_QUIT); cbn [Z.ltb Z.compare]; [discriminate |].
    apply IH.
    eapply Nat.le_lt_trans; [apply dispatch_weight |].
    cbn [msgq set_oslog set_msgq]. cbn [queue_weight] in Hn.
    unfold message_weight in Hn.
    destruct (is_key_press m), (is_quit_key m); lia.
Qed.

(** ** The exit code *)

Lemma wWinMain_runs_loop fuel nCmdShow w level :
  envIntOr (environ (platform w)) "TRACE" 1 = Some level ->
  wWinMain fuel (hModule (platform w)) nCmdShow w =
  match message_loop fuel
          (loop_entry level nCmdShow (attempt (oscall (GetModuleHandle NULL)) w)) with
  | LoopExit w4 =>
      (Exited 0, attempt (TRACE2 (Line [Text "Returning from main"])) w4)
  | LoopBlocked w4 => (Blocked, w4)
  | LoopFuel w4 => (OutOfFuel, w4)
  end.
Proof.
  intros E. unfold wWinMain. rewrite Z.eqb_refl, E. reflexivity.
Qed.

Lemma stable_loop_entry level nCmdShow w0 :
  stable (set_tracingLevel level w0) (loop_entry level nCmdShow w0).
Proof.
  unfold loop_entry.
  set (w1 := set_tracingLevel level w0).
  set (w2 := attempt (createWindow _ _ _ _ _ _) w1).
  assert (S12 : stable w1 w2).
  { apply (respects_createWindow stable stable_refl stable_trans all_calls all_calls
             stable_oscall stable_CALL_HANDLE stable_CALL_BOOL
             stable_SELECT_RESTORE stable_TRACE2); auto using stable_set_hwnd. }
  eapply stable_trans; [exact S12 |].
  unfold stable. cbn. repeat split. intros H.
  destruct (2 <=? g_tracingLevel w2) eqn:E2; [apply Z.leb_le in E2; lia | reflexivity].
Qed.

Lemma wWinMain_exit_code fuel hInstance nCmdShow w code w' :
  wWinMain fuel hInstance nCmdShow w = (Exited code, w') -> code = 0.
Proof.
  unfold wWinMain.
  destruct (negb (hInstance =? hModule (platform w))); [discriminate |].
  destruct (envIntOr _ _ _); [| discriminate].
  destruct (message_loop _ _); intros H; inversion H. reflexivity.
Qed.

Lemma wWinMain_retrieval_error fuel nCmdShow w level :
  envIntOr (environ (platform w)) "TRACE" 1 = Some level ->
  (forall n, faults (platform w) n GetMessage = true) ->
  fst (wWinMain (S fuel) (hModule (platform w)) nCmdShow w) = Exited 0.
Proof.
  intros E F. rewrite (wWinMain_runs_loop _ _ _ _ E).
  set (w0 := attempt (oscall (GetModuleHandle NULL)) w).
  destruct (stable_loop_entry level nCmdShow w0) as (P & _).
  cbn [message_loop]. unfold getMessage, fails. rewrite P.
  change (platform (set_tracingLevel level w0)) with (platform w).
  rewrite F. reflexivity.
Qed.

Lemma wWinMain_enough_fuel hInstance nCmdShow w :
  exists fuel, fst (wWinMain fuel hInstance nCmdShow w) <> OutOfFuel.
Proof.
  unfold wWinMain.
  destruct (negb (hInstance =? hModule (platform w))); [exists 0%nat; discriminate |].
  destruct (envIntOr _ _ _) as [level |]; [| exists 0%nat; discriminate].
  match goal with
  | |- context [message_loop _ ?w3] =>
      exists (S (queue_weight (msgq w3)));
      pose proof (message_loop_enough_fuel (S (queue_weight (msgq w3))) w3
                    (Nat.lt_succ_diag_r _)) as H;
      destruct (message_loop (S (queue_weight (msgq w3))) w3) as [w4 | w4 | w4]
  end.
  - discriminate.
  - discriminate.
  - exfalso. apply (H w4). reflexivity.
Qed.

(** C9.  Whenever [wWinMain] returns, it returns zero; in particular
    it returns zero when [GetMessage] ends the loop with its error
    value.  With enough fuel a run does not end for lack of fuel: it
    returns zero, waits for a message for ever, or (against the
    assertion at the start of [wWinMain] or with a [TRACE] value
    outside [int]) does not reach the loop.  When [hInstance] is the
    module handle, as the assertion says, the assertion does not
    fail. *)
Theorem C9_exit_code_is_zero :
  (forall fuel hInstance nCmdShow w code w',
     wWinMain fuel hInstance nCmdShow w = (Exited code, w') -> code = 0) /\
  (forall fuel nCmdShow w level,
     envIntOr (environ (platform w)) "TRACE" 1 = Some level ->
     (forall n, faults (platform w) n GetMessage = true) ->
     fst (wWinMain (S fuel) (hModule (platform w)) nCmdShow w) = Exited 0) /\
  (forall hInstance nCmdShow w,
     exists fuel, fst (wWinMain fuel hInstance nCmdShow w) <> OutOfFuel) /\
  (forall fuel nCmdShow w,
     fst (wWinMain fuel (hModule (platform w)) nCmdShow w) <> AssertionFailed).
Proof.
  split; [exact wWinMain_exit_code |].
  split; [exact wWinMain_retrieval_error |].
  split; [exact wWinMain_enough_fuel |].
  intros fuel nCmdShow w. unfold wWinMain. rewrite Z.eqb_refl. cbn [negb].
  destruct (envIntOr _ _ _); [| discriminate].
  destruct (message_loop _ _); discriminate.
Qed.

Lemma C9_witness :
  let w := initial_world (platform_with [("TRACE", "2")] retrieval_fails) in
  fst (wWinMain 1 4194304 1 w) = Exited 0 /\
  (wWinMain 1 4194304 1 w = (Exited 0, snd (wWinMain 1 4194304 1 w)) /\ 0 = 0).
Proof.
  intros w. split; [| split].
  - apply (proj1 (proj2 C9_exit_code_is_zero) 0%nat 1 w 2).
    + reflexivity.
    + intros n. reflexivity.
  - vm_compute. reflexivity.
  - apply (proj1 C9_exit_code_is_zero 1%nat 4194304 1 w 0
             (snd (wWinMain 1 4194304 1 w))).
    vm_compute. reflexivity.
Defined.

(** ** The Q key closes the window and ends the run *)

Lemma key_taken_registered w :
  registered w -> key_taken w 0 VK_F5 = true.
Proof.
  intros [H _]. unfold key_taken. apply existsb_exists.
  eexists. split; [exact H | reflexivity].
Qed.

(** One iteration of the loop on a world in which the window is
    closing or closed keeps it so. *)
Lemma closing_step (m : MSG) (q : list MSG) (w : World) :
  queue_works (platform w) ->
  msgq w = m :: q -> Forall ordinary (m :: q) -> closing w \/ closed w ->
  let w1 := set_oslog ((GetMessage, 1) :: oslog (set_msgq q w)) (set_msgq q w) in
  let w2 := dispatchMessage m (attempt (oscall (TranslateMessage m)) w1) in
  platform w2 = platform w /\ m_hwnd w2 = m_hwnd w /\
  Forall ordinary (msgq w2) /\ (closing w2 \/ closed w2) /\
  (queue_weight (msgq w2) < queue_weight (m :: q))%nat.
Proof.
  intros [FP FG] Q O H w1 w2.
  inversion O as [| ? ? Om Oq]; subst.
  assert (W : (queue_weight (msgq w2) < queue_weight (m :: q))%nat).
  { subst w2. eapply Nat.le_lt_trans; [apply dispatch_weight |].
    cbn. unfold message_weight.
    destruct (is_key_press m), (is_quit_key m); lia. }
  cut (platform w2 = platform w /\ m_hwnd w2 = m_hwnd w /\
       Forall ordinary (msgq w2) /\ (closing w2 \/ closed w2)).
  { intros (A & B & C & D). auto. }
  clear W. subst w2. unfold dispatchMessage.
  destruct (translate_msgq m w1) as (T1 & T2 & T3 & T4 & T5 & T6).
  set (chars := char_message (platform w) m).
  set (w1' := attempt (oscall (DispatchMessage m))
                (attempt (oscall (TranslateMessage m)) w1)) in *.
  assert (E1 : platform w1' = platform w) by exact T2.
  assert (E2 : m_hwnd w1' = m_hwnd w) by exact T3.
  assert (E3 : hotkeys w1' = hotkeys w) by exact T4.
  assert (E4 : msgq w1' = q ++ chars) by exact T1.
  assert (E5 : quit w1' = quit w) by exact T5.
  assert (E6 : wnd_exists w1' = wnd_exists w) by exact T6.
  clear T1 T2 T3 T4 T5 T6.
  assert (Oq' : Forall ordinary (q ++ chars)).
  { apply Forall_app. split; [exact Oq | apply char_message_ordinary]. }
  clear Oq. rename Oq' into Oq.
  destruct H as [(Hw & Hr & mc & Hin & Hc) | (Hw & Hq & Hn)].
  2:{ (* closed: nothing is dispatched *)
    rewrite E6, Hw.
    split; [exact E1 |]. split; [exact E2 |]. split; [rewrite E4; exact Oq |].
    right. unfold closed. rewrite E6, E5, E3, E2. auto. }
  rewrite E6, Hw.
  assert (Hr' : registered w1') by (unfold registered; rewrite E2, E3; exact Hr).
  destruct m as [u wp lp].
  destruct (Z.eq_dec u WM_CLOSE) as [-> | N3].
  { destruct (WindowProc_close wp lp w1') as (P & Hh & Mq & We & K).
    destruct (K (proj1 Hr') (proj2 Hr')) as [Kq Kn].
    split; [congruence |]. split; [congruence |].
    split; [rewrite Mq, E4; exact Oq |].
    right. unfold closed. rewrite Hh. auto. }
  destruct (is_quit_key (mkMSG u wp lp)) eqn:QK.
  { unfold is_quit_key in QK. cbn in QK. apply andb_true_iff in QK.
    destruct QK as [Q1 Q2]. apply Z.eqb_eq in Q1, Q2. subst u wp.
    change 81 with KEY_Q.
    destruct (WindowProc_quit_key lp w1') as (P & Hh & Hk & Qt & We & _ & Mq).
    rewrite E1, FP, E4 in Mq.
    split; [congruence |]. split; [congruence |].
    split.
    { rewrite Mq. apply Forall_app. split; [exact Oq |].
      constructor; [| constructor]. split; cbn; discriminate. }
    left. unfold closing, registered. rewrite We, Hh, Hk, Mq, E6.
    repeat split; try apply Hr'; auto.
    exists (mkMSG WM_CLOSE 0 0). split; [apply in_or_app; cbn; auto | auto]. }
  assert (Hin' : In mc (q ++ chars)).
  { rewrite Q in Hin. apply in_inv in Hin. apply in_or_app. left.
    destruct Hin as [Hin | Hin]; [| exact Hin].
    subst mc. destruct Hc as [Hc | Hc]; cbn in Hc; congruence. }
  destruct (Z.eq_dec u WM_CREATE) as [-> | N1].
  { destruct (WindowProc_create wp lp w1') as (P & Hh & Mq & Qt & We & K).
    specialize (K (key_taken_registered w1' Hr')).
    split; [congruence |]. split; [congruence |].
    split; [rewrite Mq, E4; exact Oq |].
    left. unfold closing, registered. rewrite We, Hh, K, Mq, E6, E4.
    repeat split; try apply Hr'; eauto. }
  destruct Om as [_ N2]. cbn in N2.
  assert (S : same_core w1' (WindowProc (mkMSG u wp lp) w1')).
  { apply WindowProc_other; cbn; auto.
    intros K. unfold is_quit_key in QK. cbn in QK.
    subst u. rewrite Z.eqb_refl in QK. cbn in QK. apply Z.eqb_neq in QK. exact QK. }
  destruct S as (P & Hh & Hk & Mq & Qt & We).
  split; [congruence |]. split; [congruence |].
  split; [rewrite Mq, E4; exact Oq |].
  left. unfold closing, registered. rewrite We, Hh, Hk, Mq, E6, E4.
  repeat split; try apply Hr'; eauto.
Qed.

Lemma closing_loop (n : nat) :
  forall w, queue_works (platform w) ->
    (queue_weight (msgq w) < n)%nat -> Forall ordinary (msgq w) ->
    closing w \/ closed w ->
    exists w', message_loop n w = LoopExit w' /\ closed w' /\
               m_hwnd w' = m_hwnd w /\ platform w' = platform w.
Proof.
  induction n as [| n IH]; intros w F Hn O H; [lia |].
  cbn [message_loop]. unfold getMessage, fails.
  rewrite (proj2 F).
  destruct (msgq w) as [| m q] eqn:Q.
  - destruct H as [(_ & _ & mc & Hin & _) | (Hw & Hq & Hk)];
      [rewrite Q in Hin; destruct Hin |].
    rewrite Hq. cbn [Z.ltb Z.compare].
    eexists. split; [reflexivity |].
    split; [| split; reflexivity].
    split; [exact Hw | split; [exact Hq | exact Hk]].
  - assert (Om : (message m =? WM_QUIT) = false).
    { inversion O as [| ? ? [Om _] _]; subst. apply Z.eqb_neq. exact Om. }
    rewrite Om. cbn [Z.ltb Z.compare].
    pose proof (closing_step m q w F Q O H) as (P & Hh & O2 & H2 & W).
    cbv zeta in *.
    match goal with
    | |- context [message_loop n ?w2] =>
        destruct (IH w2) as (w' & L & C & Hh' & P')
    end; auto.
    + rewrite P. exact F.
    + cbn [queue_weight] in *. lia.
    + exists w'. repeat split; try apply C; congruence.
Qed.

Lemma loop_entry_ready p level nCmdShow q :
  startup_works p ->
  let w3 := loop_entry level nCmdShow
              (attempt (oscall (GetModuleHandle NULL)) (set_msgq q (initial_world p))) in
  wnd_exists w3 = true /\ registered w3 /\ msgq w3 = q /\ platform w3 = p.
Proof.
  intros [FC FR].
  unfold loop_entry, createWindow, WindowProc, attempt, handleMessage,
    CALL_HANDLE_WINAPI, CALL_BOOL_WINAPI, bind, ret, abort, oscall, this_hwnd,
    TRACE2, TRACE1, TRACE, registered.
  repeat (progress (unfold fails, key_taken; cbn; rewrite ?FC, ?FR)).
  repeat split; auto.
Qed.

(** C6, as the code has it.  The handler of a key-down event for Q
    calls [PostMessage] with [WM_CLOSE] for the window and returns zero
    without calling the base handler, whether or not the message was
    accepted.  When such an event is in the queue of an open window
    whose two hot keys are registered, and the platform accepts posted
    messages and retrievals, the message loop ends with the window
    destroyed, the hot keys unregistered and the quit request posted,
    whatever else is in the queue ([WM_QUIT] and [WM_DESTROY] apart,
    which reach the loop through [PostQuitMessage] and the destruction
    of the window only), whichever characters the keyboard gives and
    whichever graphics calls fail; and a run of [wWinMain] in which
    the window is created and both hot keys are registered and which
    receives such an event returns zero with the window closed. *)
Theorem C6_quit_key_closes_window_and_exits :
  (forall base lParam w,
     handleMessage base WM_KEYDOWN KEY_Q lParam w =
     (Ok 0, snd (oscall (PostMessage (m_hwnd w) WM_CLOSE 0 0)
                   (snd (TRACE2 (Line [Text "Saw Q keypress."])
                           (snd (TRACE2 (keydown_line KEY_Q lParam) w))))))) /\
  (forall w,
     wnd_exists w = true -> registered w -> queue_works (platform w) ->
     Forall ordinary (msgq w) ->
     (exists m, In m (msgq w) /\ is_quit_key m = true) ->
     exists fuel w', message_loop fuel w = LoopExit w' /\ closed w') /\
  (forall p nCmdShow level q,
     startup_works p -> queue_works p ->
     envIntOr (environ p) "TRACE" 1 = Some level ->
     Forall ordinary q ->
     (exists m, In m q /\ is_quit_key m = true) ->
     exists fuel w',
       wWinMain fuel (hModule p) nCmdShow (set_msgq q (initial_world p))
       = (Exited 0, w') /\ closed w').
Proof.
  split; [| split].
  - intros base lParam w.
    unfold handleMessage, onKeyDown, bind, oscall, this_hwnd. cbn.
    match goal with
    | |- context [fails ?W ?c] => destruct (fails W c)
    end; reflexivity.
  - intros w Hw Hr F O (m & Hin & Hq).
    destruct (closing_loop (S (queue_weight (msgq w))) w F (Nat.lt_succ_diag_r _) O)
      as (w' & L & C & _).
    + left. unfold closing. eauto 6.
    + eauto.
  - intros p nCmdShow level q FS FQ E O (m & Hin & Hq).
    set (w := set_msgq q (initial_world p)).
    assert (Ep : platform w = p) by reflexivity.
    pose proof (loop_entry_ready p level nCmdShow q FS) as R. cbv zeta in R.
    fold w in R.
    set (w3 := loop_entry level nCmdShow (attempt (oscall (GetModuleHandle NULL)) w)) in *.
    destruct R as (Hw & Hr & Mq & P3).
    destruct (closing_loop (S (queue_weight (msgq w3))) w3) as (w' & L & C & _).
    + rewrite P3. exact FQ.
    + apply Nat.lt_succ_diag_r.
    + rewrite Mq. exact O.
    + left. unfold closing. rewrite Mq. eauto 6.
    + exists (S (queue_weight (msgq w3))).
      exists (attempt (TRACE2 (Line [Text "Returning from main"])) w').
      split; [| exact C].
      change (hModule p) with (hModule (platform w)).
      rewrite (wWinMain_runs_loop _ _ _ level) by exact E.
      fold w3. rewrite L. reflexivity.
Qed.

Lemma C6_witness :
  let p := platform_with [] bitmap_fails in
  exists fuel w',
    wWinMain fuel (hModule p) 1 (set_msgq some_input (initial_world p))
    = (Exited 0, w') /\ closed w'.
Proof.
  intros p.
  apply (proj2 (proj2 C6_quit_key_closes_window_and_exits) p 1 1 some_input).
  - split; intros; reflexivity.
  - split; intros; reflexivity.
  - reflexivity.
  - repeat constructor; cbn; discriminate.
  - exists (mkMSG WM_KEYDOWN 81 1048577). split; [cbn; auto | reflexivity].
Defined.

(** C6 as stated fails.  When the up arrow cannot be registered at
    creation, the Q key still has the window destroyed, but the
    destruction handler is given up at the failed [UnregisterHotKey]
    for the up arrow, before [PostQuitMessage]: no quit request is
    posted, [GetMessage] does not return again, and [wWinMain] returns
    for no amount of fuel. *)
Lemma C6_counterexample :
  ~ (forall p nCmdShow level q,
       envIntOr (environ p) "TRACE" 1 = Some level ->
       Forall ordinary q ->
       (exists m, In m q /\ is_quit_key m = true) ->
       exists fuel w',
         wWinMain fuel (hModule p) nCmdShow (set_msgq q (initial_world p))
         = (Exited 0, w')).
Proof.
  intros H.
  destruct (H (platform_with [] up_arrow_taken) 1 1 [mkMSG WM_KEYDOWN KEY_Q 0])
    as (fuel & w' & E).
  - reflexivity.
  - repeat constructor; cbn; discriminate.
  - eexists. split; [left; reflexivity | reflexivity].
  - destruct fuel as [| [| [| [| [| fuel]]]]]; vm_compute in E; discriminate E.
Qed.

(** A run of that kind: the window is destroyed, F5 is unregistered,
    no quit request is posted and the loop waits for ever. *)
Example run_without_up_arrow :
  let r := wWinMain 10 4194304 1
             (set_msgq [mkMSG WM_KEYDOWN KEY_Q 0]
                (initial_world (platform_with [] up_arrow_taken))) in
  fst r = Blocked /\ wnd_exists (snd r) = false /\ quit (snd r) = None /\
  hotkeys (snd r) = [] /\
  rev (wcerr (snd r)) = [ApiFailure "RegisterHotKey"; ApiFailure "UnregisterHotKey"].
Proof. vm_compute. repeat split. Qed.

(** * Further properties *)

(** ** Painting *)

Ltac run_paint :=
  unfold attempt, onPaint, SELECT_RESTORE_OBJECT, CALL_HANDLE_WINAPI,
    CALL_BOOL_WINAPI, scope_exit, bind, ret, abort, oscall, this_hwnd,
    TRACE1, TRACE;
  simp_world;
  repeat split_fault.

Lemma onPaint_success w :
  (forall n c, faults (platform w) n c = false) ->
  fst (onPaint w) = Ok tt /\
  oslog (attempt onPaint w) = rev (paint_calls w) ++ oslog w /\
  live (attempt onPaint w) = live w.
Proof.
  intros H.
  unfold attempt, onPaint, SELECT_RESTORE_OBJECT, CALL_HANDLE_WINAPI,
    CALL_BOOL_WINAPI, scope_exit, bind, ret, abort, oscall, this_hwnd,
    TRACE1, TRACE.
  no_fault H. repeat split.
Qed.

Lemma onPaint_text w :
  exists calls, oslog (attempt onPaint w) = calls ++ oslog w /\
    forall hdc x y s c r, In (TextOut hdc x y s c, r) calls ->
      x = 10 /\ y = 10 /\ s = "Sample text" /\ c = Z.of_nat (String.length s).
Proof.
  run_paint.
  all: give_new_calls; split; [reflexivity |].
  all: intros hdc x y s c r Hin; cbn in Hin;
    repeat (destruct Hin as [Hin | Hin]; try discriminate Hin); try contradiction.
  all: injection Hin as ? ? ? ? ? ?; subst; repeat split.
Qed.

(** X1.  A paint in which no call fails makes exactly the calls
    [BeginPaint], [FillRect] of the invalid rectangle with the window
    colour, [GetStockObject(SYSTEM_FONT)], the selection of that font,
    [TextOut], the selection of the original font and [EndPaint];
    what it acquires it releases in the opposite order, and it holds
    afterwards what it held before.  In every paint, whichever calls
    fail, text is written at (10, 10) only, and the count passed to
    [TextOut] is the length of the string. *)
Theorem X1_paint_history :
  (forall w, (forall n c, faults (platform w) n c = false) ->
     fst (onPaint w) = Ok tt /\
     oslog (attempt onPaint w) = rev (paint_calls w) ++ oslog w /\
     bracketed (res_events (paint_calls w)) /\
     live (attempt onPaint w) = live w) /\
  (forall w,
     exists calls, oslog (attempt onPaint w) = calls ++ oslog w /\
       forall hdc x y s c r, In (TextOut hdc x y s c, r) calls ->
         x = 10 /\ y = 10 /\ s = "Sample text" /\ c = Z.of_nat (String.length s)).
Proof.
  split; [| exact onPaint_text].
  intros w H. destruct (onPaint_success w H) as (A & B & C).
  split; [exact A |]. split; [exact B |]. split; [| exact C].
  clear. unfold bracketed. cbn. split; [reflexivity | distinct_resources].
Qed.

Lemma X1_witness :
  let w := ready_world (platform_with [] no_faults) in
  fst (onPaint w) = Ok tt /\
  oslog (attempt onPaint w) = rev (paint_calls w) ++ oslog w /\
  bracketed (res_events (paint_calls w)) /\
  live (attempt onPaint w) = live w.
Proof.
  intros w. apply (proj1 X1_paint_history w). intros n c. reflexivity.
Defined.

(** X2.  How a paint ends, for every pattern of failing calls: it runs
    to its end, its last call is [EndPaint] and it holds what it held
    before; or [BeginPaint] fails, which is its only call; or a checked
    call after [BeginPaint] fails, and then [EndPaint] is not called
    and the paint context stays held.  The font selection is given
    back in every case. *)
Theorem X2_paint_exit_paths :
  forall w,
    let r := onPaint w in
    exists calls, oslog (snd r) = calls ++ oslog w /\
      ((fst r = Ok tt /\ live (snd r) = live w /\
        exists rest, calls = (EndPaint (m_hwnd w), 1) :: rest) \/
       (fst r = Abort /\ calls = [(BeginPaint (m_hwnd w), 0)] /\
        live (snd r) = live w) \/
       (fst r = Abort /\ live (snd r) = PaintDC (m_hwnd w) :: live w /\
        forall h x, ~ In (EndPaint h, x) calls)).
Proof.
  intros w. run_paint.
  all: give_new_calls; split; [reflexivity |].
  all: first
    [ left; repeat split; eexists; reflexivity
    | right; left; repeat split; reflexivity
    | right; right; repeat split;
      intros h x Hin; cbn in Hin;
      repeat (destruct Hin as [Hin | Hin]; try discriminate Hin); exact Hin ].
Qed.

(** ** What graphics work leaves alone *)

Lemma stable_onPaint w : stable w (snd (onPaint w)).
Proof.
  apply (respects_onPaint stable stable_refl stable_trans all_calls all_calls
           stable_oscall stable_CALL_HANDLE stable_CALL_BOOL
           stable_SELECT_RESTORE); reflexivity.
Qed.

(** X3.  The capture and the paint, whichever of their calls fail,
    change neither the window handle, the hot-key table, the message
    queue, the quit request nor the existence of the window, nor the
    tracing level. *)
Theorem X3_graphics_leave_the_rest :
  forall w,
    (same_core w (attempt captureScreen w) /\
     g_tracingLevel (attempt captureScreen w) = g_tracingLevel w) /\
    (same_core w (attempt onPaint w) /\
     g_tracingLevel (attempt onPaint w) = g_tracingLevel w).
Proof.
  intros w. split; split.
  - apply same_core_captureScreen.
  - apply (stable_captureScreen w).
  - apply same_core_onPaint.
  - apply (stable_onPaint w).
Qed.

(** ** The diagnostic stream below level two *)

Lemma only_reports_refl w : only_reports w w.
Proof.
  split; [reflexivity |]. intros _. exists []. split; [reflexivity | constructor].
Qed.

Lemma only_reports_trans a b c :
  only_reports a b -> only_reports b c -> only_reports a c.
Proof.
  intros (L1 & H1) (L2 & H2). split; [congruence |]. intros Hl.
  destruct (H1 Hl) as (l1 & W1 & F1).
  destruct H2 as (l2 & W2 & F2); [lia |].
  exists (l2 ++ l1). split.
  - rewrite W2, W1. apply app_assoc.
  - apply Forall_app. auto.
Qed.

Lemma only_reports_oscall c w :
  all_calls c = true -> only_reports w (snd (oscall c w)).
Proof.
  intros _. unfold oscall. pose proof (os_exec_frame c w) as F.
  destruct (os_exec c w) as [r w1]. cbn in *.
  destruct F as (_ & L & W & _). split; [exact L |]. intros _.
  exists []. split; [exact W | constructor].
Qed.

Lemma only_reports_TRACE2 items w : only_reports w (snd (TRACE2 (Line items) w)).
Proof.
  split; [reflexivity |]. intros H. exists []. split; [| constructor].
  cbn. replace (2 <=? g_tracingLevel w) with false; [reflexivity |].
  symmetry. apply Z.leb_gt. exact H.
Qed.

Lemma only_reports_failure name w :
  only_reports w (snd (TRACE1 (ApiFailure name) w)).
Proof.
  split; [reflexivity |]. intros _. cbn.
  destruct (1 <=? g_tracingLevel w).
  - exists [ApiFailure name]. split; [reflexivity | repeat constructor].
  - exists []. split; [reflexivity | constructor].
Qed.

Lemma only_reports_CALL_HANDLE c w :
  all_calls c = true -> only_reports w (snd (CALL_HANDLE_WINAPI c w)).
Proof.
  intros _. revert w. unfold CALL_HANDLE_WINAPI.
  apply (respects_bind only_reports only_reports_trans).
  - intros w. apply only_reports_oscall. reflexivity.
  - intros h. destruct (h =? 0).
    + apply (respects_bind only_reports only_reports_trans).
      * intros w. apply only_reports_failure.
      * intros _ w. apply only_reports_refl.
    + intros w. apply only_reports_refl.
Qed.

Lemma only_reports_CALL_BOOL c w :
  all_calls c = true -> only_reports w (snd (CALL_BOOL_WINAPI c w)).
Proof.
  intros _. revert w. unfold CALL_BOOL_WINAPI.
  apply (respects_bind only_reports only_reports_trans).
  - intros w. apply only_reports_oscall. reflexivity.
  - intros h. destruct (h =? 0).
    + apply (respects_bind only_reports only_reports_trans).
      * intros w. apply only_reports_failure.
      * intros _ w. apply only_reports_refl.
    + intros w. apply only_reports_refl.
Qed.

Lemma only_reports_SELECT_RESTORE hdc obj (scope : M unit) :
  respects only_reports scope ->
  respects only_reports (SELECT_RESTORE_OBJECT hdc obj scope).
Proof.
  intros Hs. unfold SELECT_RESTORE_OBJECT.
  apply (respects_bind only_reports only_reports_trans).
  - intros w. apply only_reports_CALL_HANDLE. reflexivity.
  - intros prev.
    apply (respects_scope_exit only_reports only_reports_trans); [| exact Hs].
    apply (respects_bind only_reports only_reports_trans).
    + intros w. apply only_reports_oscall. reflexivity.
    + intros _ w. apply only_reports_refl.
Qed.

Lemma only_reports_set_hwnd h w : only_reports w (set_hwnd h w).
Proof.
  split; [reflexivity |]. intros _. exists []. split; [reflexivity | constructor].
Qed.

Lemma only_reports_getMessage w r m w' :
  getMessage w = Some (r, m, w') -> only_reports w w'.
Proof.
  unfold getMessage. intros H.
  assert (G : forall w2, g_tracingLevel w2 = g_tracingLevel w ->
                         wcerr w2 = wcerr w -> only_reports w w2).
  { intros w2 L W. split; [exact L |]. intros _.
    exists []. split; [exact W | constructor]. }
  destruct (fails w GetMessage).
  - inversion H; subst. apply G; reflexivity.
  - destruct (msgq w) as [| m0 q].
    + destruct (quit w); inversion H; subst. apply G; reflexivity.
    + inversion H; subst. apply G; reflexivity.
Qed.

(** X4.  With a tracing level below two (the default, 1, among them),
    every line that a handled message or the whole run writes to the
    diagnostic stream is the report of a failed call: none of the
    lines traced at level two ("Calling ShowWindow", the hot-key
    and key-down lines, "received WM_DESTROY", "Returning from main")
    is written. *)
Theorem X4_below_level_two_only_reports :
  (forall msg w, g_tracingLevel w < 2 ->
     exists lines, wcerr (WindowProc msg w) = lines ++ wcerr w /\
                   Forall (fun l => is_report l = true) lines) /\
  (forall fuel nCmdShow w level,
     envIntOr (environ (platform w)) "TRACE" 1 = Some level -> level < 2 ->
     exists lines,
       wcerr (snd (wWinMain fuel (hModule (platform w)) nCmdShow w))
       = lines ++ wcerr w /\
       Forall (fun l => is_report l = true) lines).
Proof.
  split.
  - intros msg w H.
    apply (R_WindowProc only_reports only_reports_refl only_reports_trans
             all_calls all_calls
             only_reports_oscall only_reports_CALL_HANDLE only_reports_CALL_BOOL
             only_reports_SELECT_RESTORE only_reports_TRACE2); auto.
  - intros fuel nCmdShow w level E Hl.
    unfold wWinMain. rewrite Z.eqb_refl, E. cbn [negb].
    set (w1 := set_tracingLevel level (attempt (oscall (GetModuleHandle NULL)) w)).
    pose proof (R_after_configuration only_reports only_reports_refl only_reports_trans
                  all_calls all_calls
                  only_reports_oscall only_reports_CALL_HANDLE only_reports_CALL_BOOL
                  only_reports_SELECT_RESTORE only_reports_TRACE2
                  (fun _ _ => eq_refl) (fun _ _ => eq_refl)
                  only_reports_set_hwnd only_reports_getMessage fuel nCmdShow w1) as S.
    cbv zeta in S. destruct S as (_ & S). apply S. exact Hl.
Qed.

Lemma X4_witness :
  let w := set_msgq some_input (initial_world (platform_with [] bitmap_fails)) in
  let w1 := set_tracingLevel 1 (ready_world (platform_with [] bitmap_fails)) in
  (exists lines,
     wcerr (WindowProc (mkMSG WM_HOTKEY HOTKEY_ID_F5 (hotkey_lParam 0 VK_F5)) w1)
     = lines ++ wcerr w1 /\
     Forall (fun l => is_report l = true) lines) /\
  (exists lines,
     wcerr (snd (wWinMain 10 (hModule (platform w)) 1 w)) = lines ++ wcerr w /\
     Forall (fun l => is_report l = true) lines).
Proof.
  intros w w1. split.
  - apply (proj1 X4_below_level_two_only_reports
             (mkMSG WM_HOTKEY HOTKEY_ID_F5 (hotkey_lParam 0 VK_F5)) w1).
    cbn. lia.
  - apply (proj2 X4_below_level_two_only_reports 10%nat 1 w 1).
    + reflexivity.
    + lia.
Defined.

(** ** Decoding the hot-key event *)

Lemma LOWORD_hotkey_lParam m v :
  0 <= m < 65536 -> 0 <= v -> LOWORD (hotkey_lParam m v) = m.
Proof.
  intros Hm Hv. unfold LOWORD, hotkey_lParam.
  change 65535 with (Z.ones 16). rewrite Z.land_ones by lia.
  change (2 ^ 16) with 65536. rewrite Z.mod_add by lia. apply Z.mod_small. lia.
Qed.

Lemma HIWORD_hotkey_lParam m v :
  0 <= m < 65536 -> 0 <= v < 65536 -> HIWORD (hotkey_lParam m v) = v.
Proof.
  intros Hm Hv. unfold HIWORD, hotkey_lParam.
  rewrite Z.shiftr_div_pow2 by lia.
  change 65535 with (Z.ones 16). rewrite Z.land_ones by lia.
  change (2 ^ 16) with 65536. rewrite Z.div_add by lia.
  rewrite Z.div_small by lia. cbn. apply Z.mod_small. lia.
Qed.

(** X5.  [handleMessage] takes a [WM_HOTKEY] event apart as the
    system packs it: for modifiers and a key code of 16 bits each,
    the event with [lParam] = modifiers + 65536 * key code is handled
    as [onHotKey] of the identifier, those modifiers and that key
    code, followed by the return of zero. *)
Theorem X5_hotkey_event_decoding :
  forall base id fsModifiers vk w,
    0 <= fsModifiers < 65536 -> 0 <= vk < 65536 ->
    handleMessage base WM_HOTKEY id (hotkey_lParam fsModifiers vk) w =
    (onHotKey id fsModifiers vk ;; ret 0) w.
Proof.
  intros base id m v w Hm Hv. unfold handleMessage.
  cbn [Z.eqb WM_HOTKEY WM_CREATE WM_DESTROY WM_PAINT Pos.eqb].
  rewrite LOWORD_hotkey_lParam, HIWORD_hotkey_lParam by lia. reflexivity.
Qed.

Lemma X5_witness :
  let w := ready_world (platform_with [] no_faults) in
  handleMessage DefWindowProc_plain WM_HOTKEY HOTKEY_ID_F5 (hotkey_lParam 0 VK_F5) w =
  (onHotKey HOTKEY_ID_F5 0 VK_F5 ;; ret 0) w.
Proof.
  intros w.
  apply (X5_hotkey_event_decoding DefWindowProc_plain HOTKEY_ID_F5 0 VK_F5 w);
    unfold VK_F5; lia.
Defined.

(** ** Where the window's picture comes from *)

Lemma captureScreen_blits (w : World) :
  let rc := clientRect (platform w) in
  exists calls, oslog (attempt captureScreen w) = calls ++ oslog w /\
    (forall post d x y cx cy s x1 y1 rop r pre,
       calls = post ++ (BitBlt d x y cx cy s x1 y1 rop, r) :: pre ->
       exists hdcScreen cxScreen cyScreen pre',
         pre = (StretchBlt s 0 0 (right rc) (bottom rc) hdcScreen 0 0
                           cxScreen cyScreen SRCCOPY, 1)
               :: rev (metrics_results (arg_order (platform w)) cxScreen cyScreen)
               ++ pre' /\
         In (GetDC NULL, hdcScreen) pre' /\ In (GetDC (m_hwnd w), d) pre' /\
         (x, y, cx, cy, x1, y1, rop) = (0, 0, right rc, bottom rc, 0, 0, SRCCOPY)) /\
    (forall post d x y cx cy s x1 y1 cx1 cy1 rop pre,
       calls = post ++ (StretchBlt d x y cx cy s x1 y1 cx1 cy1 rop, 1) :: pre ->
       exists post' hdcWindow r,
         post = post' ++ [(BitBlt hdcWindow 0 0 (right rc) (bottom rc) d 0 0 SRCCOPY, r)]).
Proof.
  run_capture.
  all: give_new_calls; split; [reflexivity |].
  all: split.
  all: lazymatch goal with
       | |- forall post d x y cx cy s x1 y1 rop r pre, _ -> exists _ _ _ _, _ =>
           intros post d x y cx cy s x1 y1 rop r pre H; find_split H;
           injection H as ? ? ? ? ? ? ? ? ? ? ?; subst;
           do 4 eexists; (split; [reflexivity |]); cbn; auto 20
       | |- _ =>
           intros post d x y cx cy s x1 y1 cx1 cy1 rop pre H; find_split H;
           inversion H; subst; clear H;
           match goal with
           | |- exists post', exists _ _, ?L = _ => exists (removelast L)
           end; cbn; do 2 eexists; reflexivity
       end.
Qed.

(** X7.  In every capture, whichever calls fail and in whichever order
    the arguments of [StretchBlt] are evaluated: a [BitBlt] is
    preceded immediately by a successful [StretchBlt], and that by the
    two [GetSystemMetrics] calls, for the width and the height of the
    screen, whose results are the extent of the source of the
    [StretchBlt]; its source is the context of the whole screen and
    its destination the memory context; the [BitBlt] copies from that
    memory context to the context of the window; both copies are at
    the origin with the extent [right] by [bottom] of the client
    rectangle and the raster operation [SRCCOPY].  A successful
    [StretchBlt] is followed immediately by the [BitBlt] from its
    destination; and when no call fails the [BitBlt] is made and
    succeeds. *)
Theorem X7_window_drawn_from_screen_copy :
  (forall w,
     let rc := clientRect (platform w) in
     exists calls, oslog (attempt captureScreen w) = calls ++ oslog w /\
       (forall post d x y cx cy s x1 y1 rop r pre,
          calls = post ++ (BitBlt d x y cx cy s x1 y1 rop, r) :: pre ->
          exists hdcScreen cxScreen cyScreen pre',
            pre = (StretchBlt s 0 0 (right rc) (bottom rc) hdcScreen 0 0
                              cxScreen cyScreen SRCCOPY, 1)
                  :: rev (metrics_results (arg_order (platform w)) cxScreen cyScreen)
                  ++ pre' /\
            In (GetDC NULL, hdcScreen) pre' /\ In (GetDC (m_hwnd w), d) pre' /\
            (x, y, cx, cy, x1, y1, rop)
            = (0, 0, right rc, bottom rc, 0, 0, SRCCOPY)) /\
       (forall post d x y cx cy s x1 y1 cx1 cy1 rop pre,
          calls = post ++ (StretchBlt d x y cx cy s x1 y1 cx1 cy1 rop, 1) :: pre ->
          exists post' hdcWindow r,
            post = post' ++ [(BitBlt hdcWindow 0 0 (right rc) (bottom rc)
                                     d 0 0 SRCCOPY, r)])) /\
  (forall w, (forall n c, faults (platform w) n c = false) ->
     let rc := clientRect (platform w) in
     exists calls hdcWindow hdcMemDC,
       oslog (attempt captureScreen w) = calls ++ oslog w /\
       In (BitBlt hdcWindow 0 0 (right rc) (bottom rc) hdcMemDC 0 0 SRCCOPY, 1)
          calls).
Proof.
  split; [exact captureScreen_blits |].
  intros w H rc. exists (rev (capture_calls w)).
  do 2 eexists. split; [apply captureScreen_success, H |].
  apply -> in_rev. unfold capture_calls.
  apply in_or_app. right. apply in_or_app. right.
  right. left. reflexivity.
Qed.

Lemma X7_witness :
  let w := ready_world (platform_with [] no_faults) in
  let rc := clientRect (platform w) in
  exists calls hdcWindow hdcMemDC,
    oslog (attempt captureScreen w) = calls ++ oslog w /\
    In (BitBlt hdcWindow 0 0 (right rc) (bottom rc) hdcMemDC 0 0 SRCCOPY, 1) calls.
Proof.
  intros w.
  apply (proj2 X7_window_drawn_from_screen_copy w). intros n c. reflexivity.
Defined.

(** ** Reading the environment variable *)

Lemma skip_space_app ws s :
  all_space ws = true -> skip_space (ws ++ s)%string = skip_space s.
Proof.
  induction ws as [| c ws IH]; cbn; intros H; [reflexivity |].
  apply andb_true_iff in H. destruct H as [Hc Hw]. rewrite Hc. apply IH, Hw.
Qed.

Lemma decimal_digits_app fuel : forall n acc rest,
  (decimal_digits fuel n acc ++ rest)%string
  = decimal_digits fuel n (acc ++ rest)%string.
Proof.
  induction fuel as [| fuel IH]; intros n acc rest; cbn; [reflexivity |].
  destruct (n <? 10); [reflexivity |]. rewrite IH. reflexivity.
Qed.

Lemma digits_value_stop rest acc :
  no_leading_digit rest = true -> digits_value rest acc = acc.
Proof.
  destruct rest as [| c r]; cbn; [reflexivity |].
  intros H. apply negb_true_iff in H. rewrite H. reflexivity.
Qed.

Lemma parse_value_decimal_rest z rest :
  - 10 ^ 10 < z < 10 ^ 10 -> no_leading_digit rest = true ->
  parse_value (decimal z ++ rest)%string = z.
Proof.
  intros Hz Hr. unfold decimal.
  destruct (z <? 0) eqn:Hneg.
  - apply Z.ltb_lt in Hneg. cbn [String.append]. rewrite decimal_digits_app.
    change (parse_value (String "-" (decimal_digits 10 (- z) ("" ++ rest)%string)))
      with (- digits_value (decimal_digits 10 (- z) ("" ++ rest)%string) 0).
    rewrite digits_value_decimal_digits by (change (Z.of_nat 10) with 10; lia).
    cbn [String.append]. rewrite digits_value_stop by exact Hr. lia.
  - apply Z.ltb_ge in Hneg. rewrite decimal_digits_app. cbn [String.append].
    destruct (decimal_digits_head 9 z rest Hneg) as (c & s & E & Hc).
    rewrite E, (parse_value_digit_start _ _ Hc), <- E.
    rewrite digits_value_decimal_digits by (change (Z.of_nat 10) with 10; lia).
    apply digits_value_stop, Hr.
Qed.

Lemma parse_value_skips ws s :
  all_space ws = true -> parse_value (ws ++ s)%string = parse_value s.
Proof.
  intros H. unfold parse_value. rewrite skip_space_app by exact H. reflexivity.
Qed.

(** X8.  [envIntOr] reads the number at the start of the value and
    ignores the rest: when the variable holds white space, then the
    decimal notation of an [int], then any text that does not start
    with a digit, the result is that integer, whatever the default. *)
Theorem X8_envIntOr_reads_leading_number :
  forall env envvar defaultValue ws z rest,
    getenv env envvar = Some (ws ++ decimal z ++ rest)%string ->
    all_space ws = true -> no_leading_digit rest = true ->
    INT_MIN <= z <= INT_MAX ->
    envIntOr env envvar defaultValue = Some z.
Proof.
  intros env envvar d ws z rest G Hw Hr Hz. unfold envIntOr. rewrite G. unfold atoi.
  rewrite parse_value_skips by exact Hw.
  rewrite parse_value_decimal_rest; [| unfold INT_MIN, INT_MAX in Hz; lia | exact Hr].
  unfold in_int_range.
  replace (INT_MIN <=? z) with true by (symmetry; apply Z.leb_le; lia).
  replace (z <=? INT_MAX) with true by (symmetry; apply Z.leb_le; lia).
  reflexivity.
Qed.

Lemma X8_witness :
  envIntOr [("TRACE", "  2 (low volume)")] "TRACE" 1 = Some 2.
Proof.
  apply (X8_envIntOr_reads_leading_number
           [("TRACE", "  2 (low volume)")] "TRACE" 1 "  " 2 " (low volume)").
  - reflexivity.
  - reflexivity.
  - reflexivity.
  - unfold INT_MIN, INT_MAX. lia.
Defined.

(** ** How creation and destruction end *)

(** X9.  The creation handler, for every pattern of failing calls:
    it gets the module handle, loads icon 1 and sends the handle it
    got, null or not, as the small and as the big icon; then it
    registers F5.  If that fails the handler is given up and the up
    arrow is not registered; otherwise it registers the up arrow, and
    it returns zero exactly when both registrations succeed.  The
    table gains nothing, F5, or F5 and the up arrow. *)
Theorem X9_creation_paths :
  forall base wParam lParam w,
    let hwnd := m_hwnd w in
    let r := handleMessage base WM_CREATE wParam lParam w in
    exists icon regs,
      oslog (snd r) = regs ++ (SendMessage hwnd WM_SETICON ICON_BIG icon, 0)
                           :: (SendMessage hwnd WM_SETICON ICON_SMALL icon, 0)
                           :: (LoadIcon (hModule (platform w)) 1, icon)
                           :: (GetModuleHandle NULL, hModule (platform w))
                           :: oslog w /\
      ((regs = [(RegisterHotKey hwnd HOTKEY_ID_F5 0 VK_F5, 0)] /\
        fst r = Abort /\ hotkeys (snd r) = hotkeys w) \/
       (regs = [(RegisterHotKey hwnd HOTKEY_ID_UP 0 VK_UP, 0);
                (RegisterHotKey hwnd HOTKEY_ID_F5 0 VK_F5, 1)] /\
        fst r = Abort /\
        hotkeys (snd r) = mkHotKey hwnd HOTKEY_ID_F5 0 VK_F5 :: hotkeys w) \/
       (regs = [(RegisterHotKey hwnd HOTKEY_ID_UP 0 VK_UP, 1);
                (RegisterHotKey hwnd HOTKEY_ID_F5 0 VK_F5, 1)] /\
        fst r = Ok 0 /\
        hotkeys (snd r) = [mkHotKey hwnd HOTKEY_ID_UP 0 VK_UP;
                           mkHotKey hwnd HOTKEY_ID_F5 0 VK_F5] ++ hotkeys w)).
Proof.
  intros base wParam lParam w.
  unfold handleMessage, CALL_BOOL_WINAPI, bind, ret, abort, oscall,
    this_hwnd, TRACE1, TRACE.
  simp_world.
  repeat match goal with
         | |- context [if ?b || ?c then _ else _] =>
             destruct (b || c) eqn:?; simp_world
         end.
  all: match goal with
       | |- context [(LoadIcon _ _, ?icon)] => exists icon
       end.
  all: give_new_calls; split; [reflexivity |].
  all: first [ left; repeat split; reflexivity
             | right; left; repeat split; reflexivity
             | right; right; repeat split; reflexivity ].
Qed.

(** X10.  The destruction handler, for every table of hot keys: it
    unregisters identifier 1; if that fails it is given up; otherwise
    it unregisters identifier 2; and [PostQuitMessage] is called, with
    zero, exactly when both succeed.  The quit request afterwards is
    the one before or zero. *)
Theorem X10_destruction_paths :
  forall base wParam lParam w,
    let hwnd := m_hwnd w in
    let r := handleMessage base WM_DESTROY wParam lParam w in
    exists calls, oslog (snd r) = calls ++ oslog w /\
      ((calls = [(UnregisterHotKey hwnd HOTKEY_ID_F5, 0)] /\
        fst r = Abort /\ quit (snd r) = quit w /\ hotkeys (snd r) = hotkeys w) \/
       (calls = [(UnregisterHotKey hwnd HOTKEY_ID_UP, 0);
                 (UnregisterHotKey hwnd HOTKEY_ID_F5, 1)] /\
        fst r = Abort /\ quit (snd r) = quit w) \/
       (calls = [(PostQuitMessage 0, 0);
                 (UnregisterHotKey hwnd HOTKEY_ID_UP, 1);
                 (UnregisterHotKey hwnd HOTKEY_ID_F5, 1)] /\
        fst r = Ok 0 /\ quit (snd r) = Some 0)).
Proof.
  intros base wParam lParam w.
  unfold handleMessage, CALL_BOOL_WINAPI, bind, ret, abort, oscall,
    this_hwnd, TRACE2, TRACE1, TRACE.
  simp_world.
  repeat match goal with
         | |- context [if existsb ?f ?l then _ else _] =>
             destruct (existsb f l) eqn:?; simp_world
         end.
  all: give_new_calls; split; [reflexivity |].
  all: first [ left; repeat split; reflexivity
             | right; left; repeat split; reflexivity
             | right; right; repeat split; reflexivity ].
Qed.
